(** * Hiya Voice Concierge: the conversation-turn pipeline, embedded in Rocq

    A shallow embedding of [voice_personal_assistant.py],
    [run_voice_agent.py], [notification_services.py], [calendar_service.py]
    and the parts of [database.py] the orchestrator relies on, followed by
    the properties of the turn pipeline.

    Python values are an inductive type [pyval]; a raised exception is the
    [Raise] arm of [result]; remote collaborators (speech, language model,
    calendar, push, e-mail, database commit) are fields of a [World] record;
    every remote call is appended to a trace carried in the state. *)

From Stdlib Require Import ZArith QArith List String Ascii Bool Lia.
Import ListNotations.

Local Open Scope string_scope.
Local Open Scope Z_scope.

Set Warnings "-register-all".

(* ================================================================= *)
(** ** Python values, exceptions and results *)

Module Py.

(** JSON-shaped Python values: what [json.loads] returns and what the
    provider SDKs hand back. A dict is an association list with string keys;
    lookup takes the first binding of a key. *)
Inductive pyval : Type :=
| PNone
| PBool (b : bool)
| PInt (z : Z)
| PFloat (q : Q)
| PStr (s : string)
| PList (l : list pyval)
| PDict (d : list (string * pyval)).

Definition dict := list (string * pyval).

(** [bool(v)]. *)
Definition truthy (v : pyval) : bool :=
  match v with
  | PNone => false
  | PBool b => b
  | PInt z => negb (z =? 0)
  | PFloat q => negb (Qeq_bool q 0)
  | PStr s => negb (s =? "")%string
  | PList l => match l with [] => false | _ => true end
  | PDict d => match d with [] => false | _ => true end
  end.

(** [a or b]. *)
Definition py_or (a b : pyval) : pyval := if truthy a then a else b.

(** [a and b]. *)
Definition py_and (a b : pyval) : pyval := if truthy a then b else a.

Fixpoint lookup (d : dict) (k : string) : option pyval :=
  match d with
  | [] => None
  | (k', v) :: d' => if (k' =? k)%string then Some v else lookup d' k
  end.

(** [d.get(k, dflt)] on a dict. *)
Definition dict_get (d : dict) (k : string) (dflt : pyval) : pyval :=
  match lookup d k with Some v => v | None => dflt end.

(** [d.setdefault(k, v)]: binds [k] only when it is absent. *)
Definition setdefault (d : dict) (k : string) (v : pyval) : dict :=
  match lookup d k with Some _ => d | None => (d ++ [(k, v)])%list end.

Inductive exn_kind :=
| RuntimeError | FileNotFoundError | TypeError | ValueError
| AttributeError | JSONDecodeError | MultipleResultsFound
| IntegrityError | InterfaceError | TransportError.

(** An exception: its class and [str(exc)]. [TransportError] stands for
    the classes of the HTTP and SDK layers (httpx.HTTPError,
    openai.APIConnectionError, ...). *)
Record exn := mkExn { kind : exn_kind; msg : string }.

Inductive result (A : Type) : Type :=
| Ok (a : A)
| Raise (e : exn).
Arguments Ok {A} a.
Arguments Raise {A} e.

Definition is_type_error (e : exn) : bool :=
  match kind e with TypeError => true | _ => false end.

(** [v.get(k, dflt)] on an arbitrary value: only a dict has [get]. *)
Definition py_get (v : pyval) (k : string) (dflt : pyval) : result pyval :=
  match v with
  | PDict d => Ok (dict_get d k dflt)
  | _ => Raise (mkExn AttributeError "object has no attribute 'get'")
  end.

(** *** Strings *)

Fixpoint prefixb (p s : string) : bool :=
  match p, s with
  | EmptyString, _ => true
  | String a p', String b s' => if Ascii.eqb a b then prefixb p' s' else false
  | String _ _, EmptyString => false
  end.

(** [p in s] for strings. *)
Fixpoint contains (p s : string) : bool :=
  if prefixb p s then true
  else match s with
       | EmptyString => false
       | String _ s' => contains p s'
       end.

(** [s.replace("Z", "+00:00")]: every occurrence of the one-character
    pattern is replaced. *)
Fixpoint replace_Z (s : string) : string :=
  match s with
  | EmptyString => EmptyString
  | String c s' =>
      if Ascii.eqb c "Z"%char then "+00:00" ++ replace_Z s'
      else String c (replace_Z s')
  end.

(** ASCII white space, as [str.strip()] and [int()] skip it. *)
Definition is_space (c : ascii) : bool :=
  let n := nat_of_ascii c in
  (Nat.eqb n 32 || (Nat.leb 9 n && Nat.leb n 13) || (Nat.leb 28 n && Nat.leb n 31))%bool.

Fixpoint lstrip (s : string) : string :=
  match s with
  | String c s' => if is_space c then lstrip s' else s
  | EmptyString => EmptyString
  end.

(** [not text.strip()]: the text is empty or white space only. *)
Definition blank (s : string) : bool := (lstrip s =? "")%string.

Definition digit_of (c : ascii) : option Z :=
  let n := nat_of_ascii c in
  if (Nat.leb 48 n && Nat.leb n 57)%bool then Some (Z.of_nat (n - 48)) else None.

(** *** Decimal rendering, for [len(events)] inside an f-string *)

Definition digit_char (d : Z) : ascii := ascii_of_nat (48 + Z.to_nat d).

Fixpoint dec_digits (fuel : nat) (n : Z) (acc : string) : string :=
  match fuel with
  | O => acc
  | S fuel' =>
      let acc' := String (digit_char (n mod 10)) acc in
      if n / 10 =? 0 then acc' else dec_digits fuel' (n / 10) acc'
  end.

(** [str(n)] for an integer. *)
Definition str_of_Z (n : Z) : string :=
  if n <? 0 then "-" ++ dec_digits (S (Z.to_nat (Z.log2 (- n)))) (- n) ""
  else dec_digits (S (Z.to_nat (Z.log2 n))) n "".

(** Two-digit zero-padded rendering ([%d], [%I], [%M]). *)
Definition two_digits (n : Z) : string :=
  String (digit_char ((n / 10) mod 10)) (String (digit_char (n mod 10)) "").

(** *** [int(v)] *)

(** Digits with single underscores between them, as [int()] accepts. *)
Fixpoint int_digits (s : string) (acc : Z) (after_digit : bool) : option Z :=
  match s with
  | EmptyString => if after_digit then Some acc else None
  | String c s' =>
      match digit_of c with
      | Some d => int_digits s' (10 * acc + d) true
      | None =>
          if (Ascii.eqb c "_"%char && after_digit)%bool
          then int_digits s' acc false
          else if is_space c
               then if (after_digit && blank s')%bool then Some acc else None
               else None
      end
  end.

Definition int_of_string (s : string) : option Z :=
  match lstrip s with
  | String "-"%char s' => option_map Z.opp (int_digits s' 0 false)
  | String "+"%char s' => int_digits s' 0 false
  | s' => int_digits s' 0 false
  end.

(** Truncation towards zero, as [int(float)]. *)
Definition Qtrunc (q : Q) : Z := Z.quot (Qnum q) (Zpos (Qden q)).

Definition py_int (v : pyval) : result Z :=
  match v with
  | PInt z => Ok z
  | PBool b => Ok (if b then 1 else 0)
  | PFloat q => Ok (Qtrunc q)
  | PStr s =>
      match int_of_string s with
      | Some z => Ok z
      | None => Raise (mkExn ValueError ("invalid literal for int() with base 10: '" ++ s ++ "'"))
      end
  | PNone => Raise (mkExn TypeError "int() argument must be a string, a bytes-like object or a real number, not 'NoneType'")
  | PList _ => Raise (mkExn TypeError "int() argument must be a string, a bytes-like object or a real number, not 'list'")
  | PDict _ => Raise (mkExn TypeError "int() argument must be a string, a bytes-like object or a real number, not 'dict'")
  end.

End Py.

(* ================================================================= *)
(** ** [datetime]: the ISO parser and the display format *)

Module Datetime.
Import Py.

(** A [datetime] object; [tzoffset] is the UTC offset in microseconds of an
    aware value, [None] for a naive one. *)
Record datetime := mkDatetime {
  year : Z; month : Z; day : Z;
  hour : Z; minute : Z; second : Z; microsecond : Z;
  tzoffset : option Z
}.

(** Reads [n] decimal digits off the front of [s]. *)
Fixpoint take_digits (n : nat) (s : string) (acc : Z) : option (Z * string) :=
  match n with
  | O => Some (acc, s)
  | S n' =>
      match s with
      | String c s' =>
          match digit_of c with
          | Some d => take_digits n' s' (10 * acc + d)
          | None => None
          end
      | EmptyString => None
      end
  end.

Definition expect (c : ascii) (s : string) : option string :=
  match s with
  | String c' s' => if Ascii.eqb c c' then Some s' else None
  | EmptyString => None
  end.

Definition is_leap (y : Z) : bool :=
  ((y mod 4 =? 0) && (negb (y mod 100 =? 0) || (y mod 400 =? 0)))%bool.

Definition days_in_month (y m : Z) : Z :=
  if m =? 2 then (if is_leap y then 29 else 28)
  else if ((m =? 4) || (m =? 6) || (m =? 9) || (m =? 11))%bool then 30
  else 31.

(** [HH[:MM[:SS[.fff[fff]]]]], the whole of [s]. *)
Definition parse_hh_mm_ss_ff (s : string) : option (Z * Z * Z * Z) :=
  match take_digits 2 s 0 with
  | None => None
  | Some (h, EmptyString) => Some (h, 0, 0, 0)
  | Some (h, r1) =>
      match expect ":"%char r1 with
      | None => None
      | Some r1' =>
          match take_digits 2 r1' 0 with
          | None => None
          | Some (m, EmptyString) => Some (h, m, 0, 0)
          | Some (m, r2) =>
              match expect ":"%char r2 with
              | None => None
              | Some r2' =>
                  match take_digits 2 r2' 0 with
                  | None => None
                  | Some (sec, EmptyString) => Some (h, m, sec, 0)
                  | Some (sec, r3) =>
                      match expect "."%char r3 with
                      | None => None
                      | Some f =>
                          match take_digits 3 f 0 with
                          | Some (ms, EmptyString) => Some (h, m, sec, ms * 1000)
                          | _ =>
                              match take_digits 6 f 0 with
                              | Some (us, EmptyString) => Some (h, m, sec, us)
                              | _ => None
                              end
                          end
                      end
                  end
              end
          end
      end
  end.

(** Splits [s] at the first occurrence of [c]. *)
Fixpoint split_at (c : ascii) (s : string) : option (string * string) :=
  match s with
  | EmptyString => None
  | String c' s' =>
      if Ascii.eqb c c' then Some (EmptyString, s')
      else match split_at c s' with
           | Some (a, b) => Some (String c' a, b)
           | None => None
           end
  end.

(** The zone suffix is looked for at the first ['-'], and at the first
    ['+'] when there is no ['-']. *)
Definition split_zone (t : string) : string * option (Z * string) :=
  match split_at "-"%char t with
  | Some (a, b) => (a, Some (-1, b))
  | None =>
      match split_at "+"%char t with
      | Some (a, b) => (a, Some (1, b))
      | None => (t, None)
      end
  end.

Definition day_us : Z := 24 * 3600 * 1000000.

Definition parse_zone (z : option (Z * string)) : option (option Z) :=
  match z with
  | None => Some None
  | Some (sign, zs) =>
      let n := String.length zs in
      if (Nat.eqb n 5 || Nat.eqb n 8 || Nat.eqb n 15)%bool then
        match parse_hh_mm_ss_ff zs with
        | Some (h, m, sec, us) =>
            let off := ((h * 3600 + m * 60 + sec) * 1000000 + us) in
            if off <? day_us then Some (Some (sign * off)) else None
        | None => None
        end
      else None
  end.

(** [datetime.fromisoformat], the grammar of CPython 3.7 to 3.10:
    [YYYY-MM-DD[*HH[:MM[:SS[.fff[fff]]]][+HH:MM[:SS[.ffffff]]]]] with the
    range checks of the [datetime] constructor; [None] is [ValueError]. *)
Definition fromisoformat (s : string) : option datetime :=
  match take_digits 4 s 0 with
  | None => None
  | Some (y, r) =>
  match expect "-"%char r with
  | None => None
  | Some r =>
  match take_digits 2 r 0 with
  | None => None
  | Some (mo, r) =>
  match expect "-"%char r with
  | None => None
  | Some r =>
  match take_digits 2 r 0 with
  | None => None
  | Some (d, r) =>
      if negb ((1 <=? y) && (1 <=? mo) && (mo <=? 12) && (1 <=? d)
               && (d <=? days_in_month y mo))%bool then None
      else
        match r with
        | EmptyString => Some (mkDatetime y mo d 0 0 0 0 None)
        | String _ t =>
            let '(ts, z) := split_zone t in
            match parse_hh_mm_ss_ff ts, parse_zone z with
            | Some (h, mi, sec, us), Some tz =>
                if ((h <=? 23) && (mi <=? 59) && (sec <=? 59))%bool
                then Some (mkDatetime y mo d h mi sec us tz)
                else None
            | _, _ => None
            end
        end
  end end end end end.

Definition month_abbr (m : Z) : string :=
  match m with
  | 1 => "Jan" | 2 => "Feb" | 3 => "Mar" | 4 => "Apr" | 5 => "May"
  | 6 => "Jun" | 7 => "Jul" | 8 => "Aug" | 9 => "Sep" | 10 => "Oct"
  | 11 => "Nov" | _ => "Dec"
  end.

Definition hour12 (h : Z) : Z := if h mod 12 =? 0 then 12 else h mod 12.

Definition am_pm (h : Z) : string := if h <? 12 then "AM" else "PM".

(** [dt.strftime("%b %d at %I:%M %p")] in the C locale. *)
Definition strftime_display (dt : datetime) : string :=
  month_abbr (month dt) ++ " " ++ two_digits (day dt) ++ " at "
  ++ two_digits (hour12 (hour dt)) ++ ":" ++ two_digits (minute dt)
  ++ " " ++ am_pm (hour dt).

End Datetime.

(* ================================================================= *)
(** ** Effects: the remote collaborators, the call trace, the monad *)

Module Effects.
Import Py Datetime.

(** One entry per remote call the process makes, in order. *)
Inductive call :=
| CallTranscribe (audio_path : string)
| CallSynthesize (text : string)
| CallClassifier (with_response_format : bool) (user_message : string)
| CallCalendar (query : pyval) (within_days max_results : Z)
| CallPushover (message title : pyval) (priority : Z)
| CallSendGrid (to_email subject content : pyval) (sender : option string).

(** [database.py]: the tables the orchestrator writes. *)
Record CalendarEvent := mkCalendarEvent {
  ce_id : Z;
  ce_user_id : Z;
  ce_title : pyval;
  ce_description : pyval;
  ce_start_time : datetime;
  ce_end_time : option datetime;
  ce_external_id : pyval
}.

Record Conversation := mkConversation {
  cv_user_id : Z;
  cv_user_message : string;
  cv_ai_response : pyval;
  cv_intent : pyval;
  cv_confidence : Z
}.

Record State := mkState {
  db_calendar_events : list CalendarEvent;
  db_conversations : list Conversation;
  trace : list call
}.

(** The collaborators of one assistant instance. Each remote operation is a
    function of its arguments that returns or raises. *)
Record World := mkWorld {
  user_id : Z;
  utcnow : datetime;
  (* SpeechService *)
  speech_client : bool;
  path_exists : string -> bool;
  transcriptions_create : string -> result string;
  speech_synthesize : string -> result string;
  (* run_voice_agent *)
  agent_client : bool;
  responses_create : bool -> string -> result string;
  json_loads : string -> option pyval;
  float_of_string : string -> option Q;
  (* GoogleCalendarClient *)
  calendar_credentials : bool;
  events_list : pyval -> Z -> Z -> result (list pyval);
  (* PushoverClient *)
  app_token : option string;
  user_key : option string;
  pushover_post : pyval -> pyval -> Z -> result pyval;
  (* SendGridClient *)
  api_key : option string;
  default_sender : option string;
  sendgrid_post : pyval -> pyval -> pyval -> option string -> result unit;
  (* DatabaseManager *)
  commit_fault : option exn;
  (* str() of a value that is not None, a bool, an int or a str *)
  py_repr : pyval -> string
}.

(** A computation that reads and updates the state and returns or raises.
    The state reached when an exception is raised is kept: remote calls
    already made stay in the trace. *)
Definition M (A : Type) : Type := State -> result A * State.

Definition ret {A} (a : A) : M A := fun st => (Ok a, st).

Definition throw {A} (e : exn) : M A := fun st => (Raise e, st).

Definition bind {A B} (m : M A) (f : A -> M B) : M B :=
  fun st =>
    match m st with
    | (Ok a, st') => f a st'
    | (Raise e, st') => (Raise e, st')
    end.

Definition lift {A} (r : result A) : M A := fun st => (r, st).

(** [try: m except Exception as exc: h exc]. *)
Definition try_except {A} (m : M A) (h : exn -> M A) : M A :=
  fun st =>
    match m st with
    | (Ok a, st') => (Ok a, st')
    | (Raise e, st') => h e st'
    end.

Definition emit (c : call) : M unit :=
  fun st => (Ok tt, mkState (db_calendar_events st) (db_conversations st) (trace st ++ [c])).

Definition rbind {A B} (r : result A) (f : A -> result B) : result B :=
  match r with Ok a => f a | Raise e => Raise e end.

End Effects.

Declare Scope py_scope.
Delimit Scope py_scope with py.
Notation "x <- m ;; k" := (Effects.bind m (fun x => k))
  (at level 61, m at next level, right associativity) : py_scope.
Notation "' pat <- m ;; k" :=
  (Effects.bind m (fun x => match x with pat => k end))
  (at level 61, pat pattern, m at next level, right associativity) : py_scope.
Notation "m ;;; k" := (Effects.bind m (fun _ => k))
  (at level 61, right associativity) : py_scope.
Notation "x <~ r ;; k" := (Effects.rbind r (fun x => k))
  (at level 61, r at next level, right associativity) : py_scope.

Local Open Scope py_scope.

(* ================================================================= *)
(** ** [notification_services.py] and [calendar_service.py] *)

Module Clients.
Import Py Datetime Effects.

(** [bool(x)] for an [Optional[str]] attribute. *)
Definition opt_truthy (o : option string) : bool :=
  match o with
  | Some s => negb (s =? "")%string
  | None => false
  end.

Module PushoverClient.

Definition is_configured (w : World) : bool :=
  (opt_truthy (app_token w) && opt_truthy (user_key w))%bool.

Definition send_message (w : World) (message title : pyval) (priority : Z)
  : M pyval :=
  if negb (is_configured w) then
    throw (mkExn RuntimeError "Pushover credentials are not configured.")
  else
    emit (CallPushover message title priority) ;;;
    lift (pushover_post w message title priority).

End PushoverClient.

Module SendGridClient.

Definition is_configured (w : World) : bool :=
  (opt_truthy (api_key w) && opt_truthy (default_sender w))%bool.

Definition not_configured : exn :=
  mkExn RuntimeError "SendGrid credentials or sender email are not configured.".

Definition send_email (w : World) (to_email subject content : pyval)
    (sender_email : option string) : M pyval :=
  if (negb (is_configured w)
      && negb (opt_truthy (api_key w) && opt_truthy sender_email))%bool then
    throw not_configured
  else
    let from := if opt_truthy sender_email then sender_email
                else default_sender w in
    emit (CallSendGrid to_email subject content from) ;;;
    _ <- lift (sendgrid_post w to_email subject content from) ;;
    ret (PDict [("status", PStr "queued")]).

End SendGridClient.

Module GoogleCalendarClient.

Definition is_configured (w : World) : bool := calendar_credentials w.

Definition list_upcoming_events (w : World) (query : pyval)
    (within_days max_results : Z) : M (list pyval) :=
  if negb (is_configured w) then
    throw (mkExn RuntimeError "Google Calendar client is not configured.")
  else
    emit (CallCalendar query within_days max_results) ;;;
    lift (events_list w query within_days max_results).

End GoogleCalendarClient.

End Clients.

(* ================================================================= *)
(** ** [run_voice_agent.py] *)

Module Agent.
Import Py Datetime Effects.

Definition unconfigured_reply : dict :=
  [ ("intent", PStr "unknown");
    ("confidence", PFloat 0);
    ("parameters", PDict []);
    ("explanation", PStr "OpenAI client is not configured. Provide OPENAI_API_KEY.") ].

Definition unparsed_reply (payload : string) : dict :=
  [ ("intent", PStr "unknown");
    ("confidence", PFloat 0);
    ("parameters", PDict []);
    ("follow_up", PStr "I could not parse the model response. Could you rephrase?");
    ("summary", PStr payload) ].

Definition unexpected_reply (payload : string) : dict :=
  [ ("intent", PStr "unknown");
    ("confidence", PFloat 0);
    ("parameters", PDict []);
    ("follow_up", PStr "I received an unexpected reply. Please try again.");
    ("summary", PStr payload) ].

(** The call [CLIENT.responses.create] followed by [response.output_text]. *)
Definition create (w : World) (with_format : bool) (user_message : string)
  : M string :=
  emit (CallClassifier with_format user_message) ;;;
  lift (responses_create w with_format user_message).

(** The [try ... except json.JSONDecodeError ... else] block. *)
Definition normalize (w : World) (payload : string) : dict :=
  match json_loads w payload with
  | None => unparsed_reply payload
  | Some (PDict data) =>
      setdefault
        (setdefault (setdefault data "parameters" (PDict []))
                    "confidence" (PFloat 0))
        "summary" (PStr payload)
  | Some _ => unexpected_reply payload
  end.

Definition _call_openai (w : World) (user_message : string) : M dict :=
  payload <-
    try_except (create w true user_message)
      (fun exc =>
         if is_type_error exc then
           if negb (contains "unexpected keyword argument 'response_format'" (msg exc))
           then throw exc
           else create w false user_message
         else throw exc) ;;
  ret (normalize w payload).

Definition run_voice_agent (w : World) (user_message : string) : M dict :=
  if negb (agent_client w) then ret unconfigured_reply
  else _call_openai w user_message.

End Agent.

(* ================================================================= *)
(** ** [voice_personal_assistant.py] *)

Module Assistant.
Import Py Datetime Effects Clients.

Record VoiceInteractionResult := mkResult {
  transcription : string;
  response_text : pyval;
  audio_path : option string;
  intent : pyval;
  confidence : Q;
  calendar_events : list pyval;
  notifications : list pyval;
  errors : list string
}.

(** The mapping every handler returns, with its four fixed keys. *)
Record HandlerResult := mkHandler {
  h_response_text : pyval;
  h_calendar_events : list pyval;
  h_notifications : list pyval;
  h_errors : list string
}.

(** *** SpeechService *)

Definition transcribe (w : World) (audio : string) : M string :=
  if negb (speech_client w) then
    throw (mkExn RuntimeError "Speech service is not configured. Provide OPENAI_API_KEY.")
  else if negb (path_exists w audio) then
    throw (mkExn FileNotFoundError ("Audio file " ++ audio ++ " not found."))
  else
    emit (CallTranscribe audio) ;;;
    lift (transcriptions_create w audio).

Definition synthesize (w : World) (text : pyval) : M (option string) :=
  if negb (speech_client w) then ret None
  else
    match text with
    | PStr s =>
        if blank s then ret None
        else
          emit (CallSynthesize s) ;;;
          try_except
            (path <- lift (speech_synthesize w s) ;; ret (Some path))
            (fun _ => ret None)
    | _ => throw (mkExn AttributeError "object has no attribute 'strip'")
    end.

(** *** Conversions and formatting *)

(** [float(v)]. *)
Definition py_float (w : World) (v : pyval) : result Q :=
  match v with
  | PFloat q => Ok q
  | PInt z => Ok (inject_Z z)
  | PBool b => Ok (if b then 1%Q else 0%Q)
  | PStr s =>
      match float_of_string w s with
      | Some q => Ok q
      | None => Raise (mkExn ValueError ("could not convert string to float: '" ++ s ++ "'"))
      end
  | PNone => Raise (mkExn TypeError "float() argument must be a string or a real number, not 'NoneType'")
  | PList _ => Raise (mkExn TypeError "float() argument must be a string or a real number, not 'list'")
  | PDict _ => Raise (mkExn TypeError "float() argument must be a string or a real number, not 'dict'")
  end.

(** [str(v)], as an f-string interpolates it. *)
Definition py_str (w : World) (v : pyval) : string :=
  match v with
  | PStr s => s
  | PNone => "None"
  | PBool true => "True"
  | PBool false => "False"
  | PInt z => str_of_Z z
  | _ => py_repr w v
  end.

(** [p.get(k1) or p.get(k2)]. *)
Definition get_or (p : pyval) (k1 k2 : string) : result pyval :=
  a <~ py_get p k1 PNone ;;
  if truthy a then Ok a else py_get p k2 PNone.

(** [event.get(k, {}).get("dateTime") or event.get(k, {}).get("date")]. *)
Definition event_time (event : pyval) (k : string) : result pyval :=
  a <~ py_get event k (PDict []) ;;
  b <~ py_get a "dateTime" PNone ;;
  if truthy b then Ok b
  else (c <~ py_get event k (PDict []) ;; py_get c "date" PNone).

Definition no_replace : exn :=
  mkExn AttributeError "object has no attribute 'replace'".

Definition _format_datetime (value : pyval) : result string :=
  if negb (truthy value) then Ok "an unspecified time"
  else
    match value with
    | PStr s =>
        match fromisoformat (replace_Z s) with
        | Some dt => Ok (strftime_display dt)
        | None => Ok s
        end
    | _ => Raise no_replace
    end.

Definition _parse_datetime (value : pyval) : result (option datetime) :=
  if negb (truthy value) then Ok None
  else
    match value with
    | PStr s => Ok (fromisoformat (replace_Z s))
    | _ => Raise no_replace
    end.

(** The summary line of one event. *)
Definition format_entry (w : World) (event : pyval) : result string :=
  start <~ event_time event "start" ;;
  end_ <~ event_time event "end" ;;
  summary <~ py_get event "summary" (PStr "Untitled event") ;;
  location <~ py_get event "location" PNone ;;
  start_display <~ _format_datetime start ;;
  end_display <~ (if truthy end_ then _format_datetime end_ else Ok "") ;;
  let entry := "- " ++ py_str w summary ++ " on " ++ start_display in
  let entry :=
    if (negb (end_display =? "") && negb (end_display =? start_display))%string%bool
    then entry ++ " until " ++ end_display else entry in
  let entry :=
    if truthy location then entry ++ " at " ++ py_str w location else entry in
  Ok entry.

Fixpoint format_entries (w : World) (events : list pyval) : result (list string) :=
  match events with
  | [] => Ok []
  | event :: rest =>
      entry <~ format_entry w event ;;
      entries <~ format_entries w rest ;;
      Ok (entry :: entries)
  end.

Definition newline : string := String (ascii_of_nat 10) "".

(** ["\n".join(lines)]. *)
Definition join_lines (lines : list string) : string := String.concat newline lines.

Definition _format_calendar_response (w : World) (events : list pyval)
    (keyword : pyval) : result string :=
  match events with
  | [] => Ok "I didn't find any upcoming events that match your request."
  | _ =>
      let keyword_text :=
        if truthy keyword then " related to " ++ py_str w keyword else "" in
      let header :=
        "Here are your next " ++ str_of_Z (Z.of_nat (List.length events))
        ++ " events" ++ keyword_text ++ ":" in
      entries <~ format_entries w events ;;
      Ok (join_lines (header :: entries))
  end.

(** *** The calendar-event table inside one session

    [SessionLocal] is made with [autoflush=False]: a query sees the rows of
    the table (with the changes made to loaded records), not the objects
    added to the session and not yet flushed. *)

(** SQL equality of a stored key with a bound parameter. *)
Definition key_eqb (a b : pyval) : bool :=
  match a, b with
  | PStr x, PStr y => (x =? y)%string
  | PInt x, PInt y => x =? y
  | PBool x, PBool y => Bool.eqb x y
  | PFloat x, PFloat y => Qeq_bool x y
  | _, _ => false
  end.

Definition matches (uid : Z) (ext : pyval) (r : CalendarEvent) : bool :=
  ((ce_user_id r =? uid) && key_eqb (ce_external_id r) ext)%bool.

(** A list or a dict cannot be bound as a query parameter. *)
Definition bindable (v : pyval) : bool :=
  match v with
  | PList _ | PDict _ => false
  | _ => true
  end.

(** [session.query(CalendarEvent).filter_by(user_id=..., external_id=...).one_or_none()]. *)
Definition one_or_none (rows : list CalendarEvent) (uid : Z) (ext : pyval)
  : result (option CalendarEvent) :=
  if negb (bindable ext) then
    Raise (mkExn InterfaceError "Error binding parameter")
  else
    match filter (matches uid ext) rows with
    | [] => Ok None
    | [r] => Ok (Some r)
    | _ => Raise (mkExn MultipleResultsFound "Multiple rows were found when one or none was required")
    end.

(** The session: the table as queries see it, and the pending additions. *)
Definition session : Type := list CalendarEvent * list CalendarEvent.

(** One iteration of the loop of [_sync_calendar_events]. *)
Definition sync_event (w : World) (event : pyval) (s : session) : result session :=
  let '(rows, added) := s in
  external_id <~ py_get event "id" PNone ;;
  if negb (truthy external_id) then Ok s
  else
    start <~ event_time event "start" ;;
    end_ <~ event_time event "end" ;;
    start_dt <~ _parse_datetime start ;;
    end_dt <~ (if truthy end_ then _parse_datetime end_ else Ok None) ;;
    record <~ one_or_none rows (user_id w) external_id ;;
    match record with
    | Some r =>
        title <~ py_get event "summary" (ce_title r) ;;
        description <~ py_get event "description" (ce_description r) ;;
        let r' :=
          mkCalendarEvent (ce_id r) (ce_user_id r) title description
            (match start_dt with Some d => d | None => ce_start_time r end)
            (match end_dt with Some d => Some d | None => ce_end_time r end)
            (ce_external_id r) in
        Ok (map (fun x => if matches (user_id w) external_id x then r' else x) rows,
            added)
    | None =>
        title <~ py_get event "summary" (PStr "Untitled event") ;;
        description <~ py_get event "description" PNone ;;
        Ok (rows,
            (added ++ [mkCalendarEvent 0 (user_id w) title description
                         (match start_dt with Some d => d | None => utcnow w end)
                         end_dt external_id])%list)
    end.

Fixpoint sync_loop (w : World) (events : list pyval) (s : session) : result session :=
  match events with
  | [] => Ok s
  | event :: rest => s' <~ sync_event w event s ;; sync_loop w rest s'
  end.

Definition next_id (rows : list CalendarEvent) : Z :=
  1 + fold_right (fun r m => Z.max (ce_id r) m) 0 rows.

(** The primary keys the table gives to inserted rows. *)
Fixpoint assign_ids (n : Z) (added : list CalendarEvent) : list CalendarEvent :=
  match added with
  | [] => []
  | r :: rest =>
      mkCalendarEvent n (ce_user_id r) (ce_title r) (ce_description r)
        (ce_start_time r) (ce_end_time r) (ce_external_id r)
      :: assign_ids (n + 1) rest
  end.

Definition null_title (r : CalendarEvent) : bool :=
  match ce_title r with PNone => true | _ => false end.

(** [session.commit()]: [title] is [nullable=False]. *)
Definition commit_events (w : World) (s : session) : result (list CalendarEvent) :=
  let '(rows, added) := s in
  match commit_fault w with
  | Some e => Raise e
  | None =>
      if existsb null_title (rows ++ added) then
        Raise (mkExn IntegrityError "NOT NULL constraint failed: calendar_events.title")
      else Ok (rows ++ assign_ids (next_id rows) added)%list
  end.

(** [with self.db.get_session() as session]: commit on success, roll back
    and re-raise on an exception. *)
Definition _sync_calendar_events (w : World) (events : list pyval) : M unit :=
  fun st =>
    match events with
    | [] => (Ok tt, st)
    | _ =>
        match (s <~ sync_loop w events (db_calendar_events st, []) ;;
               commit_events w s) with
        | Ok rows => (Ok tt, mkState rows (db_conversations st) (trace st))
        | Raise e => (Raise e, st)
        end
    end.

(** [int(confidence * 100)]. *)
Definition confidence_percent (c : Q) : Z := Qtrunc (c * 100).

Definition _persist_conversation (w : World) (transcription : string)
    (response intent : pyval) (confidence : Q) : M unit :=
  fun st =>
    let row := mkConversation (user_id w) transcription response intent
                 (confidence_percent confidence) in
    match commit_fault w with
    | Some e => (Raise e, st)
    | None =>
        match response with
        | PNone =>
            (Raise (mkExn IntegrityError "NOT NULL constraint failed: conversations.ai_response"), st)
        | _ =>
            (Ok tt, mkState (db_calendar_events st)
                      (db_conversations st ++ [row]) (trace st))
        end
    end.

(** *** The handlers *)

Definition calendar_failed (exc : exn) : string := "Calendar lookup failed: " ++ msg exc.

Definition calendar_unconfigured : string :=
  "Google Calendar integration is not configured. "
  ++ "Set GOOGLE_SERVICE_ACCOUNT_FILE or GOOGLE_SERVICE_ACCOUNT_JSON.".

(** The body of the [try] of [_handle_calendar_lookup], with its
    [except Exception]; it yields the values of the locals
    [response_text], [events] and [errors] after the statement. *)
Definition calendar_try (w : World) (keyword within_days max_results : pyval)
  : M (string * list pyval * list string) :=
  try_except
    (wd <- lift (py_int within_days) ;;
     mr <- lift (py_int max_results) ;;
     events <- GoogleCalendarClient.list_upcoming_events w keyword wd mr ;;
     try_except
       (text <- lift (_format_calendar_response w events keyword) ;;
        try_except
          (_sync_calendar_events w events ;;; ret (text, events, []))
          (fun exc => ret (text, events, [calendar_failed exc])))
       (fun exc => ret ("", events, [calendar_failed exc])))
    (fun exc => ret ("", [], [calendar_failed exc])).

Definition _handle_calendar_lookup (w : World) (parameters follow_up : pyval)
  : M HandlerResult :=
  keyword <- lift (get_or parameters "keyword" "subject") ;;
  within_days <- lift (py_get parameters "within_days" (PInt 7)) ;;
  max_results <- lift (py_get parameters "max_results" (PInt 5)) ;;
  '(text, events, errs) <-
    (if negb (GoogleCalendarClient.is_configured w)
     then ret ("", [], [calendar_unconfigured])
     else calendar_try w keyword within_days max_results) ;;
  let text :=
    if ((text =? "")%string && match errs with [] => true | _ => false end)%bool
    then "I could not find any matching events in your calendar." else text in
  ret (mkHandler (PStr text) events [] errs).

Definition question (text : string) : HandlerResult :=
  mkHandler (PStr text) [] [] [].

Definition _handle_push_notification (w : World) (parameters follow_up : pyval)
  : M HandlerResult :=
  message <- lift (get_or parameters "message" "content") ;;
  title0 <- lift (py_get parameters "title" PNone) ;;
  let title := py_or title0 (PStr "Reminder from Hiya Assistant") in
  priority0 <- lift (py_get parameters "priority" (PInt 0)) ;;
  priority <- lift (py_int priority0) ;;
  if negb (truthy message) then
    ret (question "What would you like me to include in the push notification?")
  else
    '(notes, errs) <-
      (if negb (PushoverClient.is_configured w)
       then ret ([], ["Pushover credentials are not configured."])
       else
         try_except
           (result <- PushoverClient.send_message w message title priority ;;
            ret ([PDict [("channel", PStr "pushover"); ("result", result)]], []))
           (fun exc => ret ([], ["Pushover notification failed: " ++ msg exc]))) ;;
    let text :=
      match errs with
      | [] => "I sent your push notification."
      | _ => "I could not send the push notification."
      end in
    ret (mkHandler (PStr text) [] notes errs).

Definition _handle_send_email (w : World) (parameters follow_up : pyval)
  : M HandlerResult :=
  to_email <- lift (get_or parameters "to_email" "recipient") ;;
  subject0 <- lift (py_get parameters "subject" PNone) ;;
  let subject := py_or subject0 (PStr "Update from Hiya Assistant") in
  body <- lift (get_or parameters "body" "message") ;;
  if negb (truthy to_email) then
    ret (question "Who should I email? Please provide an email address.")
  else if negb (truthy body) then
    ret (question "What would you like me to say in the email?")
  else
    '(notes, errs) <-
      (if negb (SendGridClient.is_configured w)
       then ret ([], ["SendGrid credentials are not configured."])
       else
         try_except
           (result <- SendGridClient.send_email w to_email subject body None ;;
            ret ([PDict [("channel", PStr "sendgrid"); ("result", result)]], []))
           (fun exc => ret ([], ["SendGrid email failed: " ++ msg exc]))) ;;
    let text :=
      match errs with
      | [] => "I sent the email as requested."
      | _ => "I could not send the email."
      end in
    ret (mkHandler (PStr text) [] notes errs).

Definition _handle_smalltalk (w : World) (parameters follow_up : pyval)
  : M HandlerResult :=
  reply <- lift (py_get parameters "reply" PNone) ;;
  ret (mkHandler (py_or reply (PStr "Happy to help! What else can I do for you?"))
         [] [] []).

Definition _handle_clarification (w : World) (parameters follow_up : pyval)
  : M HandlerResult :=
  if truthy follow_up then ret (mkHandler follow_up [] [] [])
  else
    q <- lift (py_get parameters "question" PNone) ;;
    ret (mkHandler (py_or q (PStr "Could you clarify what you need?")) [] [] []).

Definition unhandled_reply : string :=
  "I'm not sure how to help with that yet, but I'm learning every day!".

Definition _handle_unknown (w : World) (parameters follow_up : pyval)
  : M HandlerResult :=
  ret (mkHandler (PStr unhandled_reply) [] [] []).

(** *** Dispatch *)

Inductive handler_name :=
| CalendarLookup | PushNotification | SendEmail | Smalltalk | Clarification
| Unknown.

(** The keys of the [handlers] table. *)
Definition recognized : list string :=
  ["calendar_lookup"; "push_notification"; "send_email"; "smalltalk";
   "clarification"].

(** [handlers.get(intent, self._handle_unknown)]: a key that cannot be
    hashed raises, any other key absent from the table gets the default. *)
Definition select_handler (intent : pyval) : result handler_name :=
  match intent with
  | PList _ => Raise (mkExn TypeError "unhashable type: 'list'")
  | PDict _ => Raise (mkExn TypeError "unhashable type: 'dict'")
  | PStr s =>
      Ok (if (s =? "calendar_lookup")%string then CalendarLookup
          else if (s =? "push_notification")%string then PushNotification
          else if (s =? "send_email")%string then SendEmail
          else if (s =? "smalltalk")%string then Smalltalk
          else if (s =? "clarification")%string then Clarification
          else Unknown)
  | _ => Ok Unknown
  end.

Definition run_handler (w : World) (h : handler_name)
  : pyval -> pyval -> M HandlerResult :=
  match h with
  | CalendarLookup => _handle_calendar_lookup w
  | PushNotification => _handle_push_notification w
  | SendEmail => _handle_send_email w
  | Smalltalk => _handle_smalltalk w
  | Clarification => _handle_clarification w
  | Unknown => _handle_unknown w
  end.

Definition _execute_intent (w : World) (intent parameters follow_up : pyval)
  : M HandlerResult :=
  let intent := py_or intent (PStr "unknown") in
  handler <- lift (select_handler intent) ;;
  run_handler w handler parameters follow_up.

(** *** The turn *)

Definition transcription_fallback : string :=
  "I could not transcribe your audio. Please try again.".

Definition handle_audio (w : World) (audio : string) : M VoiceInteractionResult :=
  '(transcription, errs) <-
    try_except
      (t <- transcribe w audio ;; ret (t, []))
      (fun exc => ret ("", ["Transcription failed: " ++ msg exc])) ;;
  let transcription :=
    if (transcription =? "")%string then transcription_fallback
    else transcription in
  agent_result <- Agent.run_voice_agent w transcription ;;
  let intent := dict_get agent_result "intent" (PStr "unknown") in
  confidence <- lift (py_float w (dict_get agent_result "confidence" (PFloat 0))) ;;
  let parameters := py_or (dict_get agent_result "parameters" (PDict [])) (PDict []) in
  let follow_up := dict_get agent_result "follow_up" PNone in
  execution <- _execute_intent w intent parameters follow_up ;;
  let errs := (errs ++ h_errors execution)%list in
  let response_text :=
    py_or (h_response_text execution)
          (dict_get agent_result "summary" (PStr "I processed your request.")) in
  audio_output <- synthesize w response_text ;;
  _persist_conversation w transcription response_text intent confidence ;;;
  ret (mkResult transcription response_text audio_output intent confidence
         (h_calendar_events execution) (h_notifications execution) errs).

End Assistant.

(* ================================================================= *)
(** ** Concrete worlds *)

Module Scenarios.
Import Py Datetime Effects Clients Assistant.

Definition noon : datetime := mkDatetime 2024 10 19 12 0 0 0 None.

Definition empty_state : State := mkState [] [] [].

(** A world built from what the language model answers ([None]: no
    client), what its answer parses to, what the calendar returns ([None]:
    no credentials) and whether the push and mail credentials are set.
    Speech is not configured and the database accepts every commit. *)
Definition make_world (llm : option (result string)) (parsed : option pyval)
    (calendar : option (result (list pyval))) (push mail : bool) : World :=
  {| user_id := 1;
     utcnow := noon;
     speech_client := false;
     path_exists := fun _ => false;
     transcriptions_create := fun _ => Ok "";
     speech_synthesize := fun _ => Ok "output/audio/assistant.mp3";
     agent_client := match llm with Some _ => true | None => false end;
     responses_create :=
       fun _ _ => match llm with
                  | Some r => r
                  | None => Raise (mkExn RuntimeError "no client")
                  end;
     json_loads := fun _ => parsed;
     float_of_string := fun _ => None;
     calendar_credentials := match calendar with Some _ => true | None => false end;
     events_list :=
       fun _ _ _ => match calendar with
                    | Some r => r
                    | None => Raise (mkExn RuntimeError "no credentials")
                    end;
     app_token := if push then Some "token" else None;
     user_key := if push then Some "user" else None;
     pushover_post := fun _ _ _ => Ok (PDict [("status", PInt 1)]);
     api_key := if mail then Some "key" else None;
     default_sender := if mail then Some "hiya@example.com" else None;
     sendgrid_post := fun _ _ _ _ => Ok tt;
     commit_fault := None;
     py_repr := fun _ => "<object>" |}.


(** [w] at another time of the clock. *)
Definition with_clock (w : World) (now : datetime) : World :=
  {| user_id := user_id w;
     utcnow := now;
     speech_client := speech_client w;
     path_exists := path_exists w;
     transcriptions_create := transcriptions_create w;
     speech_synthesize := speech_synthesize w;
     agent_client := agent_client w;
     responses_create := responses_create w;
     json_loads := json_loads w;
     float_of_string := float_of_string w;
     calendar_credentials := calendar_credentials w;
     events_list := events_list w;
     app_token := app_token w;
     user_key := user_key w;
     pushover_post := pushover_post w;
     api_key := api_key w;
     default_sender := default_sender w;
     sendgrid_post := sendgrid_post w;
     commit_fault := commit_fault w;
     py_repr := py_repr w |}.


Definition one_o_clock : datetime := mkDatetime 2024 10 19 13 0 0 0 None.

(** No language model, no calendar, no credentials. *)
Definition offline : World := make_world None None None false false.


End Scenarios.

(* ================================================================= *)
(** ** Properties of the clients and of the handlers *)

Module ClientProps.
Import Py Datetime Effects Clients Assistant Scenarios.







End ClientProps.

Module HandlerProps.
Import Py Datetime Effects Clients Assistant Scenarios.

(** The key is absent from the mapping or bound to a value that is false
    in a condition ([None], the empty string, ...). *)
Definition lacks (d : dict) (k : string) : Prop :=
  truthy (dict_get d k PNone) = false.

Lemma get_or_lacking d k1 k2 :
  lacks d k1 -> lacks d k2 ->
  exists v, get_or (PDict d) k1 k2 = Ok v /\ truthy v = false.
Proof.
  intros H1 H2. unfold get_or, py_get, rbind. rewrite H1. eauto.
Qed.


(** C6. With neither a recipient ([to_email]/[recipient]) nor a body
    ([body]/[message]) in the parameters, [_handle_send_email] returns the
    question about the recipient, with no error, no notification, and the
    state (hence the trace of remote calls) unchanged. *)
Theorem send_email_asks_for_recipient_first
    (w : World) (d : dict) (follow_up : pyval) (st : State) :
  lacks d "to_email" -> lacks d "recipient" ->
  lacks d "body" -> lacks d "message" ->
  _handle_send_email w (PDict d) follow_up st
  = (Ok (mkHandler (PStr "Who should I email? Please provide an email address.")
           [] [] []), st).
Proof.
  intros Ht Hr Hb Hm.
  destruct (get_or_lacking d "to_email" "recipient" Ht Hr) as [v [Hv Hfalse]].
  destruct (get_or_lacking d "body" "message" Hb Hm) as [b [Hbv _]].
  unfold _handle_send_email, bind, lift.
  rewrite Hv. simpl. rewrite Hbv. rewrite Hfalse. reflexivity.
Qed.

Lemma send_email_asks_for_recipient_first_witness :
  _handle_send_email offline (PDict [("subject", PStr "Lunch")]) PNone empty_state
  = (Ok (mkHandler (PStr "Who should I email? Please provide an email address.")
           [] [] []), empty_state).
Proof.
  apply (send_email_asks_for_recipient_first offline
           [("subject", PStr "Lunch")] PNone empty_state); reflexivity.
Defined.

(** *** Dispatch *)

Lemma not_recognized_eqb (s : string) :
  ~ In s recognized ->
  (s =? "calendar_lookup")%string = false
  /\ (s =? "push_notification")%string = false
  /\ (s =? "send_email")%string = false
  /\ (s =? "smalltalk")%string = false
  /\ (s =? "clarification")%string = false.
Proof.
  intro H. unfold recognized in H. simpl in H.
  repeat split; apply String.eqb_neq; intro E; apply H; subst; tauto.
Qed.

Lemma select_unrecognized (s : string) :
  ~ In s recognized ->
  select_handler (py_or (PStr s) (PStr "unknown")) = Ok Unknown.
Proof.
  intro H. unfold py_or. simpl.
  destruct (s =? "")%string eqn:E; simpl.
  - reflexivity.
  - destruct (not_recognized_eqb s H) as (H1 & H2 & H3 & H4 & H5).
    rewrite H1, H2, H3, H4, H5. reflexivity.
Qed.

(** C5. An intent name outside the table, whether it is the value of the
    [intent] key or the default ["unknown"] taken when the key is missing,
    is routed to [_handle_unknown]: [_execute_intent] returns (it does not
    raise) the fixed reply with empty event, notification and error lists,
    and the state is unchanged. *)
Theorem unrecognized_intent_gets_default_handler
    (w : World) (agent_result : dict) (s : string)
    (parameters follow_up : pyval) (st : State) :
  dict_get agent_result "intent" (PStr "unknown") = PStr s ->
  ~ In s recognized ->
  _execute_intent w (dict_get agent_result "intent" (PStr "unknown"))
    parameters follow_up st
  = (Ok (mkHandler
           (PStr "I'm not sure how to help with that yet, but I'm learning every day!")
           [] [] []), st).
Proof.
  intros Hi Hs. rewrite Hi.
  unfold _execute_intent, bind, lift.
  rewrite (select_unrecognized s Hs). reflexivity.
Qed.

Lemma not_recognized_unknown : ~ In "unknown" recognized.
Proof.
  unfold recognized. simpl. intros [H|[H|[H|[H|[H|H]]]]]; try discriminate H; exact H.
Qed.

Lemma not_recognized_empty : ~ In "" recognized.
Proof.
  unfold recognized. simpl. intros [H|[H|[H|[H|[H|H]]]]]; try discriminate H; exact H.
Qed.

Lemma unrecognized_intent_witness :
  _execute_intent offline (dict_get [("confidence", PFloat 0)] "intent" (PStr "unknown"))
    (PDict []) PNone empty_state
  = (Ok (mkHandler
           (PStr "I'm not sure how to help with that yet, but I'm learning every day!")
           [] [] []), empty_state).
Proof.
  apply (unrecognized_intent_gets_default_handler offline
           [("confidence", PFloat 0)] "unknown" (PDict []) PNone empty_state).
  - reflexivity.
  - exact not_recognized_unknown.
Defined.

(** *** Push notification *)

(** C7, at the parameters [{"priority": "high"}]: no message, and the
    handler raises the [ValueError] of [int("high")] instead of returning
    its question, because the priority is converted before the message is
    looked at. *)
Theorem push_notification_priority_raises_before_question
    (w : World) (follow_up : pyval) (st : State) :
  lacks [("priority", PStr "high")] "message"
  /\ lacks [("priority", PStr "high")] "content"
  /\ _handle_push_notification w (PDict [("priority", PStr "high")]) follow_up st
     = (Raise (mkExn ValueError "invalid literal for int() with base 10: 'high'"),
        st).
Proof. repeat split. Qed.

(** Where the priority is absent or converts, the question is returned. *)
Lemma push_notification_asks_for_message
    (w : World) (d : dict) (follow_up : pyval) (st : State) (p : Z) :
  lacks d "message" -> lacks d "content" ->
  py_int (dict_get d "priority" (PInt 0)) = Ok p ->
  _handle_push_notification w (PDict d) follow_up st
  = (Ok (mkHandler
           (PStr "What would you like me to include in the push notification?")
           [] [] []), st).
Proof.
  intros Hm Hc Hp.
  destruct (get_or_lacking d "message" "content" Hm Hc) as [v [Hv Hfalse]].
  unfold _handle_push_notification, bind, lift.
  rewrite Hv. simpl. rewrite Hp. rewrite Hfalse. reflexivity.
Qed.

(** *** Calendar lookup *)

Ltac case_matches :=
  repeat match goal with
         | |- context [match ?x with _ => _ end] => destruct x eqn:?
         | H : context [match ?x with _ => _ end] |- _ => destruct x eqn:?
         end.

(** The [try] statement never lets an exception out, and when it leaves no
    error the reply is the formatted list of the events it fetched. *)
Lemma calendar_try_returns w keyword wd mr st :
  exists text events errs st',
    calendar_try w keyword wd mr st = (Ok (text, events, errs), st')
    /\ (errs = [] -> _format_calendar_response w events keyword = Ok text).
Proof.
  unfold calendar_try, try_except, bind, lift, ret.
  destruct (py_int wd) as [a|e]; [|do 4 eexists; split; [reflexivity|discriminate]].
  destruct (py_int mr) as [b|e]; [|do 4 eexists; split; [reflexivity|discriminate]].
  destruct (GoogleCalendarClient.list_upcoming_events w keyword a b st)
    as [[events|e] st1] eqn:L;
    [|do 4 eexists; split; [reflexivity|discriminate]].
  destruct (_format_calendar_response w events keyword) as [text|e] eqn:F;
    [|do 4 eexists; split; [reflexivity|discriminate]].
  destruct (_sync_calendar_events w events st1) as [[u|e] st2] eqn:S;
    do 4 eexists; split; try reflexivity; try discriminate; auto.
Qed.

Lemma calendar_lookup_shape w d follow_up st :
  exists text events errs st',
    _handle_calendar_lookup w (PDict d) follow_up st
    = (Ok (mkHandler (PStr text) events [] errs), st')
    /\ (errs = [] -> text <> "")
    /\ (GoogleCalendarClient.is_configured w = true -> errs = [] ->
        _format_calendar_response w events (py_or (dict_get d "keyword" PNone)
                                                  (dict_get d "subject" PNone))
        = Ok text).
Proof.
  unfold _handle_calendar_lookup, bind, lift, get_or, py_get, rbind, ret.
  replace (if truthy (dict_get d "keyword" PNone)
           then Ok (dict_get d "keyword" PNone)
           else Ok (dict_get d "subject" PNone))
    with (@Ok pyval (py_or (dict_get d "keyword" PNone) (dict_get d "subject" PNone)))
    by (unfold py_or; destruct (truthy (dict_get d "keyword" PNone)); reflexivity).
  destruct (GoogleCalendarClient.is_configured w) eqn:C; simpl.
  - destruct (calendar_try_returns w
                (py_or (dict_get d "keyword" PNone) (dict_get d "subject" PNone))
                (dict_get d "within_days" (PInt 7))
                (dict_get d "max_results" (PInt 5)) st)
      as (text & events & errs & st' & Htry & Hfmt).
    rewrite Htry.
    destruct errs as [|e errs].
    + specialize (Hfmt eq_refl).
      destruct (text =? "")%string eqn:E.
      * apply String.eqb_eq in E. subst text.
        exfalso. unfold _format_calendar_response in Hfmt.
        destruct events; [discriminate Hfmt|].
        destruct (format_entries w (p :: events)) as [entries|];
          simpl in Hfmt; [|discriminate].
        unfold join_lines in Hfmt. simpl in Hfmt.
        destruct entries; discriminate Hfmt.
      * simpl. do 4 eexists. split; [reflexivity|]. split.
        -- intros _. now apply String.eqb_neq.
        -- intros _ _. exact Hfmt.
    + rewrite andb_false_r. do 4 eexists. split; [reflexivity|].
      split; discriminate.
  - do 4 eexists. split; [reflexivity|]. split; discriminate.
Qed.

(** C4, as the code has it. With a configured calendar client, a list of
    zero events and an empty error list, the reply of
    [_handle_calendar_lookup] is the message of
    [_format_calendar_response] for an empty list. *)
Theorem calendar_lookup_zero_events_reply
    (w : World) (d : dict) (follow_up : pyval) (st st' : State)
    (r : HandlerResult) :
  GoogleCalendarClient.is_configured w = true ->
  _handle_calendar_lookup w (PDict d) follow_up st = (Ok r, st') ->
  h_calendar_events r = [] ->
  h_errors r = [] ->
  h_response_text r
  = PStr "I didn't find any upcoming events that match your request.".
Proof.
  intros Hc Hrun Hev Herr.
  destruct (calendar_lookup_shape w d follow_up st)
    as (text & events & errs & st1 & Hshape & _ & Hfmt).
  rewrite Hshape in Hrun. injection Hrun as Hr _. subst r. simpl in *.
  subst events errs. specialize (Hfmt Hc eq_refl).
  simpl in Hfmt. injection Hfmt as <-. reflexivity.
Qed.

(** A calendar that answers every query with zero events. *)
Definition quiet_calendar : World := make_world None None (Some (Ok [])) false false.

Lemma calendar_lookup_zero_events_witness :
  h_response_text
    (mkHandler (PStr "I didn't find any upcoming events that match your request.")
       [] [] [])
  = PStr "I didn't find any upcoming events that match your request.".
Proof.
  apply (calendar_lookup_zero_events_reply quiet_calendar
           [("keyword", PStr "flight")] PNone empty_state
           (mkState [] [] [CallCalendar (PStr "flight") 7 5])); reflexivity.
Defined.

(** C4 as stated fails: configured client, zero events, no error, and the
    reply is not "I could not find any matching events in your calendar." *)
Lemma calendar_lookup_zero_events_counterexample :
  exists r st',
    GoogleCalendarClient.is_configured quiet_calendar = true
    /\ events_list quiet_calendar (PStr "flight") 7 5 = Ok []
    /\ _handle_calendar_lookup quiet_calendar (PDict [("keyword", PStr "flight")])
         PNone empty_state = (Ok r, st')
    /\ h_calendar_events r = []
    /\ h_errors r = []
    /\ h_response_text r
       <> PStr "I could not find any matching events in your calendar.".
Proof.
  do 2 eexists. repeat split; try reflexivity. simpl. discriminate.
Qed.

(** *** Timestamps in the calendar summary *)











End HandlerProps.

(* ================================================================= *)
(** ** Properties of the intent classifier adapter *)

Module AgentProps.
Import Py Datetime Effects Clients Assistant Scenarios.
Import Agent.















End AgentProps.

(* ================================================================= *)
(** ** The calendar-sync upsert *)

Module SyncProps.
Import Py Datetime Effects Clients Assistant Scenarios.

(** The string ids of the events that have one. *)
Definition external_id (event : pyval) : list string :=
  match event with
  | PDict d =>
      match dict_get d "id" PNone with
      | PStr s => if (s =? "")%string then [] else [s]
      | _ => []
      end
  | _ => []
  end.

Definition external_ids (events : list pyval) : list string :=
  flat_map external_id events.

(** Every id the provider gives is a string. *)
Definition string_id (event : pyval) : Prop :=
  forall d, event = PDict d ->
    truthy (dict_get d "id" PNone) = true ->
    exists s, dict_get d "id" PNone = PStr s.

(** Number of rows of the table for a user and an external id. *)
Definition count_rows (uid : Z) (s : string) (rows : list CalendarEvent) : nat :=
  List.length (filter (matches uid (PStr s)) rows).

Definition set_id (k : Z) (x : CalendarEvent) : CalendarEvent :=
  mkCalendarEvent k (ce_user_id x) (ce_title x) (ce_description x)
    (ce_start_time x) (ce_end_time x) (ce_external_id x).

(** The assignments of the [if record:] branch. *)
Definition update_row (d : dict) (sdt edt : option datetime) (r : CalendarEvent)
  : CalendarEvent :=
  mkCalendarEvent (ce_id r) (ce_user_id r)
    (dict_get d "summary" (ce_title r))
    (dict_get d "description" (ce_description r))
    (match sdt with Some t => t | None => ce_start_time r end)
    (match edt with Some t => Some t | None => ce_end_time r end)
    (ce_external_id r).

(** The object of the [else] branch. *)
Definition new_row (w : World) (d : dict) (sdt edt : option datetime)
    (ext : pyval) : CalendarEvent :=
  mkCalendarEvent 0 (user_id w)
    (dict_get d "summary" (PStr "Untitled event"))
    (dict_get d "description" PNone)
    (match sdt with Some t => t | None => utcnow w end)
    edt ext.

(** The parsed start and end of an event. *)
Definition event_times (e : pyval) : result (option datetime * option datetime) :=
  start <~ event_time e "start" ;;
  end_ <~ event_time e "end" ;;
  sdt <~ _parse_datetime start ;;
  edt <~ (if truthy end_ then _parse_datetime end_ else Ok None) ;;
  Ok (sdt, edt).

Lemma sync_event_dict w d rows added :
  sync_event w (PDict d) (rows, added)
  = if negb (truthy (dict_get d "id" PNone)) then Ok (rows, added)
    else
      match event_times (PDict d) with
      | Raise e => Raise e
      | Ok (sdt, edt) =>
          match one_or_none rows (user_id w) (dict_get d "id" PNone) with
          | Raise e => Raise e
          | Ok (Some r) =>
              Ok (map (fun x => if matches (user_id w) (dict_get d "id" PNone) x
                                then update_row d sdt edt r else x) rows,
                  added)
          | Ok None =>
              Ok (rows, (added ++ [new_row w d sdt edt (dict_get d "id" PNone)])%list)
          end
      end.
Proof.
  unfold sync_event, event_times, rbind.
  change (py_get (PDict d) "id" PNone) with (Ok (dict_get d "id" PNone)).
  cbv iota beta.
  destruct (negb (truthy (dict_get d "id" PNone))); [reflexivity|].
  destruct (event_time (PDict d) "start") as [start|e]; [|reflexivity].
  destruct (event_time (PDict d) "end") as [end_|e]; [|reflexivity].
  destruct (_parse_datetime start) as [sdt|e]; [|reflexivity].
  destruct (if truthy end_ then _parse_datetime end_ else Ok None) as [edt|e];
    [|reflexivity].
  destruct (one_or_none rows (user_id w) (dict_get d "id" PNone)) as [[r|]|e];
    reflexivity.
Qed.

Lemma sync_event_needs_dict w e s s' :
  sync_event w e s = Ok s' -> exists d, e = PDict d.
Proof.
  destruct e; try (destruct s; discriminate). eauto.
Qed.

(** *** Rows and keys *)

Lemma key_eqb_str v s : key_eqb v (PStr s) = true -> v = PStr s.
Proof.
  destruct v; simpl; try discriminate.
  intro H. apply String.eqb_eq in H. now subst.
Qed.

Lemma matches_other_key uid s s' x :
  matches uid (PStr s) x = true -> s <> s' -> matches uid (PStr s') x = false.
Proof.
  unfold matches. intros H Hne.
  apply andb_true_iff in H. destruct H as [Hu Hk].
  apply key_eqb_str in Hk. rewrite Hk. simpl.
  apply andb_false_iff. right. now apply String.eqb_neq.
Qed.

Lemma update_row_idem d sdt edt x :
  update_row d sdt edt (update_row d sdt edt x) = update_row d sdt edt x.
Proof.
  unfold update_row, dict_get. simpl.
  destruct (lookup d "summary"), (lookup d "description"), sdt, edt; reflexivity.
Qed.

Lemma update_new_row w d sdt edt ext :
  update_row d sdt edt (new_row w d sdt edt ext) = new_row w d sdt edt ext.
Proof.
  unfold update_row, new_row, dict_get. simpl.
  destruct (lookup d "summary"), (lookup d "description"), sdt, edt; reflexivity.
Qed.

Lemma update_set_id d sdt edt k x :
  update_row d sdt edt x = x ->
  update_row d sdt edt (set_id k x) = set_id k x.
Proof.
  intro H. destruct x as [i u t de st en ex].
  unfold update_row, set_id in *. simpl in *.
  injection H as Ht Hd Hs He. now rewrite Ht, Hd, Hs, He.
Qed.

(** *** Lists *)

Lemma filter_map_frame {A} (m : A -> bool) (f : A -> A) (l : list A) :
  (forall x, In x l -> m (f x) = m x) ->
  (forall x, In x l -> m x = true -> f x = x) ->
  filter m (map f l) = filter m l.
Proof.
  induction l as [|a l IH]; simpl; intros H1 H2; [reflexivity|].
  rewrite (H1 a (or_introl eq_refl)).
  destruct (m a) eqn:E.
  - rewrite (H2 a (or_introl eq_refl) E). f_equal. apply IH; auto.
  - apply IH; auto.
Qed.

Lemma filter_map_same {A} (m : A -> bool) (u : A -> A) (l : list A) :
  (forall x, m (u x) = m x) ->
  filter m (map (fun x => if m x then u x else x) l) = map u (filter m l).
Proof.
  intro H. induction l as [|a l IH]; simpl; [reflexivity|].
  destruct (m a) eqn:E.
  - rewrite H, E. simpl. now rewrite IH.
  - rewrite E. exact IH.
Qed.

Lemma filter_single_in {A} (m : A -> bool) (l : list A) (r x : A) :
  filter m l = [r] -> In x l -> m x = true -> x = r.
Proof.
  intros H Hin Hm.
  assert (Hx : In x (filter m l)) by (apply filter_In; auto).
  rewrite H in Hx. destruct Hx as [Hx|[]]. now symmetry.
Qed.

Lemma filter_assign_ids (m : CalendarEvent -> bool) :
  (forall k x, m (set_id k x) = m x) ->
  forall added n,
    Forall2 (fun x y => exists k, y = set_id k x)
      (filter m added) (filter m (assign_ids n added)).
Proof.
  intros Hm added. induction added as [|a added IH]; intro n; simpl.
  - constructor.
  - change (mkCalendarEvent n (ce_user_id a) (ce_title a) (ce_description a)
              (ce_start_time a) (ce_end_time a) (ce_external_id a))
      with (set_id n a).
    rewrite Hm. destruct (m a).
    + constructor; eauto.
    + apply IH.
Qed.

Lemma existsb_assign_ids added : forall n,
  existsb null_title (assign_ids n added) = existsb null_title added.
Proof.
  induction added as [|a added IH]; intro n; simpl; [reflexivity|].
  now rewrite IH.
Qed.

(** *** One iteration *)

(** The loaded record is the one row the loop rewrites. *)
Definition touch (uid : Z) (ext : pyval) (d : dict) (sdt edt : option datetime)
    (rows : list CalendarEvent) : list CalendarEvent :=
  map (fun x => if matches uid ext x then update_row d sdt edt x else x) rows.

Lemma one_or_none_str rows uid s :
  one_or_none rows uid (PStr s)
  = match filter (matches uid (PStr s)) rows with
    | [] => Ok None
    | [r] => Ok (Some r)
    | _ => Raise (mkExn MultipleResultsFound
                    "Multiple rows were found when one or none was required")
    end.
Proof. reflexivity. Qed.

Lemma sync_event_cases w d r a r1 a1 :
  sync_event w (PDict d) (r, a) = Ok (r1, a1) ->
  string_id (PDict d) ->
  (truthy (dict_get d "id" PNone) = false /\ r1 = r /\ a1 = a)
  \/ exists s sdt edt,
       dict_get d "id" PNone = PStr s /\ s <> ""
       /\ event_times (PDict d) = Ok (sdt, edt)
       /\ ((exists x0, filter (matches (user_id w) (PStr s)) r = [x0]
                       /\ r1 = touch (user_id w) (PStr s) d sdt edt r /\ a1 = a)
           \/ (filter (matches (user_id w) (PStr s)) r = []
               /\ r1 = r
               /\ a1 = (a ++ [new_row w d sdt edt (PStr s)])%list)).
Proof.
  intros H Hid. rewrite sync_event_dict in H.
  destruct (truthy (dict_get d "id" PNone)) eqn:T; simpl in H.
  - right. destruct (Hid d eq_refl T) as [s Hs]. rewrite Hs in *.
    assert (Hne : s <> "").
    { intro E. subst s. discriminate T. }
    destruct (event_times (PDict d)) as [[sdt edt]|e]; [|discriminate].
    exists s, sdt, edt. repeat split; auto.
    rewrite one_or_none_str in H.
    destruct (filter (matches (user_id w) (PStr s)) r) as [|x0 [|x1 l]] eqn:F;
      try discriminate.
    + right. injection H as <- <-. auto.
    + left. exists x0. injection H as <- <-. repeat split.
      unfold touch. apply map_ext_in. intros x Hin.
      destruct (matches (user_id w) (PStr s) x) eqn:M; [|reflexivity].
      now rewrite (filter_single_in _ _ _ _ F Hin M).
  - left. injection H as <- <-. auto.
Qed.

(** An event leaves the rows of every other external id as they are. *)
Lemma sync_event_frame w e s r a r1 a1 :
  sync_event w e (r, a) = Ok (r1, a1) ->
  string_id e ->
  ~ In s (external_id e) ->
  filter (matches (user_id w) (PStr s)) r1 = filter (matches (user_id w) (PStr s)) r
  /\ filter (matches (user_id w) (PStr s)) a1 = filter (matches (user_id w) (PStr s)) a.
Proof.
  intros H Hid Hs.
  destruct (sync_event_needs_dict _ _ _ _ H) as [d ->].
  destruct (sync_event_cases _ _ _ _ _ _ H Hid)
    as [(_ & -> & ->) | (s' & sdt & edt & Hs' & Hne & _ & Hcase)]; [auto|].
  assert (Hdiff : s' <> s).
  { intro E. apply Hs. unfold external_id. rewrite Hs'.
    apply String.eqb_neq in Hne. rewrite Hne. left. exact E. }
  destruct Hcase as [(x0 & F & -> & ->) | (F & -> & ->)].
  - split; [|reflexivity]. unfold touch. apply filter_map_frame.
    + intros x _. destruct (matches (user_id w) (PStr s') x); reflexivity.
    + intros x _ M.
      now rewrite (matches_other_key _ _ _ _ M (not_eq_sym Hdiff)).
  - split; [reflexivity|]. rewrite filter_app. simpl.
    unfold matches at 2. simpl.
    apply String.eqb_neq in Hdiff. rewrite Hdiff, andb_false_r.
    apply app_nil_r.
Qed.

Lemma sync_loop_frame w s : forall es r a r' a',
  sync_loop w es (r, a) = Ok (r', a') ->
  Forall string_id es ->
  ~ In s (external_ids es) ->
  filter (matches (user_id w) (PStr s)) r' = filter (matches (user_id w) (PStr s)) r
  /\ filter (matches (user_id w) (PStr s)) a' = filter (matches (user_id w) (PStr s)) a.
Proof.
  induction es as [|e es IH]; cbn [sync_loop]; intros r a r' a' H Hid Hs.
  - injection H as <- <-. auto.
  - unfold rbind in H.
    destruct (sync_event w e (r, a)) as [[r1 a1]|exc] eqn:E; [|discriminate].
    inversion Hid as [|? ? He Hes]; subst.
    unfold external_ids in Hs. simpl in Hs. rewrite in_app_iff in Hs.
    destruct (sync_event_frame _ _ s _ _ _ _ E He) as [F1 F2]; [tauto|].
    destruct (IH _ _ _ _ H Hes) as [G1 G2]; [unfold external_ids; tauto|].
    split; congruence.
Qed.

(** *** After one run *)

(** What one run leaves for an event: nothing when it has no id, and
    otherwise one row, loaded or added, that the event's own update would
    not change. *)
Definition upserted (uid : Z) (e : pyval) (rows added : list CalendarEvent) : Prop :=
  exists d, e = PDict d
  /\ (truthy (dict_get d "id" PNone) = false
      \/ exists s sdt edt x,
           dict_get d "id" PNone = PStr s
           /\ event_times e = Ok (sdt, edt)
           /\ update_row d sdt edt x = x
           /\ ((filter (matches uid (PStr s)) rows = [x]
                /\ filter (matches uid (PStr s)) added = [])
               \/ (filter (matches uid (PStr s)) rows = []
                   /\ filter (matches uid (PStr s)) added = [x]))).

Lemma sync_loop_upserts w : forall es r a r' a',
  sync_loop w es (r, a) = Ok (r', a') ->
  Forall string_id es ->
  NoDup (external_ids es) ->
  (forall s, In s (external_ids es) ->
             filter (matches (user_id w) (PStr s)) a = []) ->
  Forall (fun e => upserted (user_id w) e r' a') es.
Proof.
  induction es as [|e es IH]; cbn [sync_loop]; intros r a r' a' H Hid Hnd Hadd;
    [constructor|].
  unfold rbind in H.
  destruct (sync_event w e (r, a)) as [[r1 a1]|exc] eqn:E; simpl in H;
      [|discriminate].
  inversion Hid as [|? ? He Hes]; subst.
  destruct (sync_event_needs_dict _ _ _ _ E) as [d ->].
  unfold external_ids in Hnd, Hadd. cbn [flat_map] in Hnd, Hadd.
  fold (external_ids es) in Hnd, Hadd.
  destruct (sync_event_cases _ _ _ _ _ _ E He)
    as [(T & -> & ->) | (s & sdt & edt & Hs & Hne & Ht & Hcase)].
  - (* no id: the session is as it was *)
    assert (Hnil : external_id (PDict d) = []).
    { unfold external_id. destruct (dict_get d "id" PNone); try reflexivity.
      simpl in T. apply negb_false_iff in T. now rewrite T. }
    rewrite Hnil in Hnd, Hadd. simpl in Hnd, Hadd.
    constructor.
    + exists d. split; [reflexivity|]. now left.
    + now apply (IH r a).
  - assert (Hone : external_id (PDict d) = [s]).
    { unfold external_id. rewrite Hs.
      apply String.eqb_neq in Hne. now rewrite Hne. }
    rewrite Hone in Hnd, Hadd. simpl in Hnd, Hadd.
    inversion Hnd as [|? ? Hfresh Hnd']; subst.
    assert (Ha : filter (matches (user_id w) (PStr s)) a = [])
      by (apply Hadd; now left).
    destruct (sync_loop_frame w s _ _ _ _ _ H Hes Hfresh) as [F1 F2].
    constructor.
    + exists d. split; [reflexivity|]. right.
      destruct Hcase as [(x0 & F & -> & ->) | (F & -> & ->)].
      * exists s, sdt, edt, (update_row d sdt edt x0).
        repeat split; auto using update_row_idem.
        left. split; [|congruence].
        rewrite F1. unfold touch.
        rewrite filter_map_same by reflexivity. now rewrite F.
      * exists s, sdt, edt, (new_row w d sdt edt (PStr s)).
        repeat split; auto using update_new_row.
        right. split; [congruence|].
        rewrite F2, filter_app, Ha. simpl.
        unfold matches at 1. simpl.
        now rewrite Z.eqb_refl, String.eqb_refl.
    + apply (IH r1 a1); auto.
      intros s' Hin.
      destruct Hcase as [(x0 & F & -> & ->) | (F & -> & ->)].
      * apply Hadd. now right.
      * rewrite filter_app, (Hadd s' (or_intror Hin)). simpl.
        unfold matches at 1. simpl.
        assert (s <> s') by (intro; subst; contradiction).
        apply String.eqb_neq in H0. now rewrite H0, andb_false_r.
Qed.

(** *** The second run *)

(** The table already holds, for an event, the row its update produces. *)
Definition settled (uid : Z) (e : pyval) (rows : list CalendarEvent) : Prop :=
  exists d, e = PDict d
  /\ (truthy (dict_get d "id" PNone) = false
      \/ exists s sdt edt x,
           dict_get d "id" PNone = PStr s
           /\ event_times e = Ok (sdt, edt)
           /\ filter (matches uid (PStr s)) rows = [x]
           /\ update_row d sdt edt x = x).

Lemma upserted_settled uid e rows added n :
  upserted uid e rows added ->
  settled uid e (rows ++ assign_ids n added).
Proof.
  intros (d & -> & [T | (s & sdt & edt & x & Hs & Ht & Hfix & Hcase)]);
    exists d; (split; [reflexivity|]); [now left|right].
  pose proof (filter_assign_ids (matches uid (PStr s))
                (fun k y => eq_refl) added n) as F.
  destruct Hcase as [[Hr Ha] | [Hr Ha]]; rewrite Ha in F; inversion F; subst.
  - exists s, sdt, edt, x. repeat split; auto.
    rewrite filter_app, Hr. rewrite <- H. reflexivity.
  - match goal with H : Forall2 _ [] _ |- _ => inversion H; subst end.
    match goal with H : exists k, _ = set_id k x |- _ => destruct H as [k ->] end.
    exists s, sdt, edt, (set_id k x). repeat split; auto using update_set_id.
    rewrite filter_app, Hr. simpl.
    match goal with H : _ :: [] = filter _ _ |- _ => now rewrite <- H end.
Qed.

Lemma settled_step w e rows :
  settled (user_id w) e rows ->
  sync_event w e (rows, []) = Ok (rows, []).
Proof.
  intros (d & -> & [T | (s & sdt & edt & x & Hs & Ht & F & Hfix)]);
    rewrite sync_event_dict.
  - now rewrite T.
  - destruct (negb (truthy (dict_get d "id" PNone))); [reflexivity|].
    rewrite Ht, Hs, one_or_none_str, F. f_equal. f_equal.
    rewrite <- (map_id rows) at 2. apply map_ext_in. intros y Hin.
    destruct (matches (user_id w) (PStr s) y) eqn:M; [|reflexivity].
    rewrite (filter_single_in _ _ _ _ F Hin M). exact Hfix.
Qed.

Lemma settled_loop w rows : forall es,
  Forall (fun e => settled (user_id w) e rows) es ->
  sync_loop w es (rows, []) = Ok (rows, []).
Proof.
  induction es as [|e es IH]; cbn [sync_loop]; intro H; [reflexivity|].
  inversion H; subst. rewrite settled_step by assumption. cbn [rbind]. auto.
Qed.

Lemma external_ids_in s events :
  In s (external_ids events) ->
  exists d, In (PDict d) events /\ dict_get d "id" PNone = PStr s /\ s <> "".
Proof.
  unfold external_ids. rewrite in_flat_map.
  intros (e & Hin & Hs). destruct e; try contradiction.
  exists d. unfold external_id in Hs.
  destruct (dict_get d "id" PNone) eqn:I; try contradiction.
  destruct (s0 =? "")%string eqn:E; [contradiction|].
  destruct Hs as [<-|[]]. apply String.eqb_neq in E. auto.
Qed.

(** C9, as the code has it. For a list of events whose external ids are
    strings and pairwise distinct, when a first run of
    [_sync_calendar_events] has committed, a second run on the same list
    (at any later time of the clock) commits and leaves the table exactly
    as the first run left it, with exactly one row for the user and each
    external id of the list. *)
Theorem sync_twice_is_idempotent
    (w1 w2 : World) (events : list pyval) (st st1 : State) :
  user_id w2 = user_id w1 ->
  commit_fault w2 = None ->
  Forall string_id events ->
  NoDup (external_ids events) ->
  _sync_calendar_events w1 events st = (Ok tt, st1) ->
  _sync_calendar_events w2 events st1 = (Ok tt, st1)
  /\ forall s, In s (external_ids events) ->
       count_rows (user_id w1) s (db_calendar_events st1) = 1%nat.
Proof.
  intros Hu Hc Hid Hnd H1.
  destruct events as [|e es].
  - split; [reflexivity|]. intros s [].
  - remember (e :: es) as events eqn:Hev.
    assert (Hrun : forall w st0,
               _sync_calendar_events w events st0
               = match (s <~ sync_loop w events (db_calendar_events st0, []) ;;
                        commit_events w s) with
                 | Ok rows => (Ok tt, mkState rows (db_conversations st0) (trace st0))
                 | Raise exc => (Raise exc, st0)
                 end).
    { intros w st0. rewrite Hev. reflexivity. }
    rewrite Hrun in H1. unfold rbind in H1.
    destruct (sync_loop w1 events (db_calendar_events st, []))
      as [[rows added]|exc] eqn:L; [|discriminate].
    unfold commit_events in H1.
    destruct (commit_fault w1); [discriminate|].
    destruct (existsb null_title (rows ++ added)) eqn:N; [discriminate|].
    injection H1 as <-.
    assert (Hset : Forall (fun ev => settled (user_id w2) ev
                             (rows ++ assign_ids (next_id rows) added)) events).
    { rewrite Hu.
      eapply Forall_impl; [|apply (sync_loop_upserts w1 _ _ _ _ _ L Hid Hnd)].
      - intros ev Hup. now apply upserted_settled.
      - reflexivity. }
    split.
    + rewrite Hrun. simpl db_calendar_events.
      rewrite (settled_loop w2 _ _ Hset). simpl. rewrite Hc.
      rewrite app_nil_r, existsb_app, existsb_assign_ids, <- existsb_app, N.
      reflexivity.
    + intros s Hs. simpl db_calendar_events. unfold count_rows.
      destruct (external_ids_in _ _ Hs) as (d & Hin & Hd & Hne).
      rewrite Forall_forall in Hset.
      destruct (Hset _ Hin) as (d' & E & Hcase).
      injection E as <-.
      destruct Hcase as [T | (s' & sdt & edt & x & Hs' & _ & F & _)].
      * rewrite Hd in T. simpl in T. apply negb_false_iff in T.
        apply String.eqb_eq in T. contradiction.
      * rewrite Hd in Hs'. injection Hs' as <-.
        rewrite <- Hu, F. reflexivity.
Qed.

Definition flight : pyval :=
  PDict [("id", PStr "evt-1"); ("summary", PStr "Flight to SFO");
         ("start", PDict [("dateTime", PStr "2024-10-19T18:00:00Z")])].

Definition dinner : pyval :=
  PDict [("id", PStr "evt-2"); ("description", PStr "With Ann")].

Definition flight_row : CalendarEvent :=
  mkCalendarEvent 1 1 (PStr "Flight to SFO") PNone
    (mkDatetime 2024 10 19 18 0 0 0 (Some 0)) None (PStr "evt-1").

Definition dinner_row : CalendarEvent :=
  mkCalendarEvent 2 1 (PStr "Untitled event") (PStr "With Ann") noon None
    (PStr "evt-2").

Definition synced : State := mkState [flight_row; dinner_row] [] [].

Lemma sync_twice_witness :
  _sync_calendar_events (with_clock offline one_o_clock) [flight; dinner] synced
  = (Ok tt, synced)
  /\ forall s, In s ["evt-1"; "evt-2"] ->
       count_rows 1 s [flight_row; dinner_row] = 1%nat.
Proof.
  apply (sync_twice_is_idempotent offline (with_clock offline one_o_clock)
           [flight; dinner] empty_state synced).
  - reflexivity.
  - reflexivity.
  - repeat constructor; intros d E T; injection E as <-; eexists; reflexivity.
  - repeat constructor; simpl; intuition discriminate.
  - reflexivity.
Defined.

(** C9 as stated fails: a list that carries the same external id twice
    makes the first run insert two rows (the query does not see the row
    added and not yet flushed), and the second run finds both. *)
Lemma sync_duplicate_id_counterexample :
  exists st1,
    _sync_calendar_events offline [flight; flight] empty_state = (Ok tt, st1)
    /\ count_rows 1 "evt-1" (db_calendar_events st1) = 2%nat
    /\ _sync_calendar_events offline [flight; flight] st1
       = (Raise (mkExn MultipleResultsFound
                   "Multiple rows were found when one or none was required"),
          st1).
Proof. eexists. repeat split. Qed.

End SyncProps.

(* ================================================================= *)
(** ** The turn: what [handle_audio] returns and what it lets through *)

Module TurnProps.
Import Py Datetime Effects Clients Assistant Scenarios.
Import Agent HandlerProps.

(** A string or [None]. *)
Definition text_or_none (v : pyval) : Prop :=
  match v with
  | PNone | PStr _ => True
  | _ => False
  end.





(** The first statement of [handle_audio]. *)
Definition transcription_stage (w : World) (audio : string)
  : M (string * list string) :=
  try_except
    (t <- transcribe w audio ;; ret (t, []))
    (fun exc => ret ("", ["Transcription failed: " ++ msg exc])).

Lemma transcription_stage_returns w audio st :
  exists t errs st0,
    transcription_stage w audio st = (Ok (t, errs), st0)
    /\ (forall exc st', transcribe w audio st = (Raise exc, st') ->
          errs = ["Transcription failed: " ++ msg exc])
    /\ (forall t' st', transcribe w audio st = (Ok t', st') ->
          t = t' /\ errs = []).
Proof.
  unfold transcription_stage, try_except, bind, ret.
  destruct (transcribe w audio st) as [[t|exc] st0];
    do 3 eexists; (split; [reflexivity|]); split; intros ? ? H;
    try discriminate H; injection H as -> _; auto.
Qed.



(** Speech synthesis of a string never raises. *)
Lemma synthesize_text_returns w s st :
  exists a st', synthesize w (PStr s) st = (Ok a, st').
Proof.
  unfold synthesize.
  destruct (negb (speech_client w)); [unfold ret; eauto|].
  destruct (blank s); [unfold ret; eauto|].
  unfold try_except, bind, emit, lift, ret.
  destruct (speech_synthesize w s); eauto.
Qed.



(** *** Every handler returns on typed parameters *)







(** *** The turn up to the commit of the conversation row *)

Definition heard (t : string) : string :=
  if (t =? "")%string then transcription_fallback else t.


(** *** Failures of the remote calls of the handlers *)

Definition add_call (st : State) (c : call) : State :=
  mkState (db_calendar_events st) (db_conversations st) (trace st ++ [c]).

Lemma get_or_value p k1 k2 :
  get_or (PDict p) k1 k2 = Ok (py_or (dict_get p k1 PNone) (dict_get p k2 PNone)).
Proof.
  unfold get_or, py_get, rbind, py_or.
  destruct (truthy (dict_get p k1 PNone)); reflexivity.
Qed.

Lemma push_failure_is_reported w p fu st z exc :
  let message := py_or (dict_get p "message" PNone) (dict_get p "content" PNone) in
  let title := py_or (dict_get p "title" PNone) (PStr "Reminder from Hiya Assistant") in
  truthy message = true ->
  py_int (dict_get p "priority" (PInt 0)) = Ok z ->
  PushoverClient.is_configured w = true ->
  pushover_post w message title z = Raise exc ->
  _handle_push_notification w (PDict p) fu st
  = (Ok (mkHandler (PStr "I could not send the push notification.") [] []
           ["Pushover notification failed: " ++ msg exc]),
     add_call st (CallPushover message title z)).
Proof.
  intros message title Hm Hz Hc Hpost.
  unfold _handle_push_notification, bind, lift.
  rewrite get_or_value. fold message. simpl. rewrite Hz, Hm, Hc. simpl.
  unfold try_except, PushoverClient.send_message, bind, emit, lift, ret.
  rewrite Hc. simpl. fold title. rewrite Hpost. reflexivity.
Qed.

Lemma email_failure_is_reported w p fu st exc :
  let to_email := py_or (dict_get p "to_email" PNone) (dict_get p "recipient" PNone) in
  let subject := py_or (dict_get p "subject" PNone) (PStr "Update from Hiya Assistant") in
  let body := py_or (dict_get p "body" PNone) (dict_get p "message" PNone) in
  truthy to_email = true ->
  truthy body = true ->
  SendGridClient.is_configured w = true ->
  sendgrid_post w to_email subject body (default_sender w) = Raise exc ->
  _handle_send_email w (PDict p) fu st
  = (Ok (mkHandler (PStr "I could not send the email.") [] []
           ["SendGrid email failed: " ++ msg exc]),
     add_call st (CallSendGrid to_email subject body (default_sender w))).
Proof.
  intros to_email subject body Ht Hb Hc Hpost.
  unfold _handle_send_email, bind, lift.
  rewrite !get_or_value. fold to_email body. simpl. rewrite Ht, Hb, Hc. simpl.
  unfold try_except, SendGridClient.send_email, bind, emit, lift, ret.
  rewrite Hc. simpl. fold subject. rewrite Hpost. reflexivity.
Qed.

Lemma calendar_failure_is_reported w p fu st wd mr exc :
  let keyword := py_or (dict_get p "keyword" PNone) (dict_get p "subject" PNone) in
  py_int (dict_get p "within_days" (PInt 7)) = Ok wd ->
  py_int (dict_get p "max_results" (PInt 5)) = Ok mr ->
  GoogleCalendarClient.is_configured w = true ->
  events_list w keyword wd mr = Raise exc ->
  _handle_calendar_lookup w (PDict p) fu st
  = (Ok (mkHandler (PStr "") [] [] ["Calendar lookup failed: " ++ msg exc]),
     add_call st (CallCalendar keyword wd mr)).
Proof.
  intros keyword Hwd Hmr Hc Hlist.
  unfold _handle_calendar_lookup, bind, lift.
  rewrite get_or_value. fold keyword. simpl. rewrite Hc. simpl.
  unfold calendar_try, try_except, bind, lift.
  rewrite Hwd, Hmr.
  unfold GoogleCalendarClient.list_upcoming_events, bind, emit, lift.
  rewrite Hc. simpl. rewrite Hlist. reflexivity.
Qed.

Lemma synthesis_failure_is_silent w s st exc :
  speech_client w = true -> blank s = false ->
  speech_synthesize w s = Raise exc ->
  synthesize w (PStr s) st = (Ok None, add_call st (CallSynthesize s)).
Proof.
  intros Hc Hb Hs. unfold synthesize. rewrite Hc, Hb. simpl.
  unfold try_except, bind, emit, lift, ret. now rewrite Hs.
Qed.

(** *** The claims on [handle_audio] *)











End TurnProps.

(* ================================================================= *)
(** ** What a computation leaves alone *)

Module Frames.
Import Py Datetime Effects Clients Assistant Scenarios.

Section Keeps.
Context {X : Type} (f : State -> X).

(** [m] ends, whether it returns or raises, in a state with the same [f]. *)
Definition keeps {A} (m : M A) : Prop := forall st, f (snd (m st)) = f st.

Hypothesis f_emit : forall c st, f (snd (emit c st)) = f st.

Lemma keeps_ret {A} (a : A) : keeps (ret a).
Proof. intro st. reflexivity. Qed.

Lemma keeps_throw {A} (e : exn) : keeps (@throw A e).
Proof. intro st. reflexivity. Qed.

Lemma keeps_lift {A} (r : result A) : keeps (lift r).
Proof. intro st. reflexivity. Qed.

Lemma keeps_emit c : keeps (emit c).
Proof. intro st. apply f_emit. Qed.

Lemma keeps_bind {A B} (m : M A) (k : A -> M B) :
  keeps m -> (forall a, keeps (k a)) -> keeps (bind m k).
Proof.
  intros Hm Hk st. unfold bind. specialize (Hm st).
  destruct (m st) as [[a|e] st1]; simpl in *.
  - rewrite <- Hm. apply Hk.
  - exact Hm.
Qed.

Lemma keeps_try {A} (m : M A) (h : exn -> M A) :
  keeps m -> (forall e, keeps (h e)) -> keeps (try_except m h).
Proof.
  intros Hm Hh st. unfold try_except. specialize (Hm st).
  destruct (m st) as [[a|e] st1]; simpl in *.
  - exact Hm.
  - rewrite <- Hm. apply Hh.
Qed.

End Keeps.

Ltac keeps_step :=
  first
    [ apply keeps_ret | apply keeps_throw | apply keeps_lift
    | apply keeps_emit; assumption
    | apply keeps_bind | apply keeps_try
    | match goal with
      | |- keeps _ (if ?b then _ else _) => destruct b
      | |- keeps _ (match ?x with _ => _ end) => destruct x
      | |- forall _, _ => intro
      end ].

Section KeepsCode.
Context {X : Type} (f : State -> X).
Hypothesis f_emit : forall c st, f (snd (emit c st)) = f st.

Lemma keeps_transcribe w audio : keeps f (transcribe w audio).
Proof. unfold transcribe. repeat keeps_step. Qed.

Lemma keeps_synthesize w text : keeps f (synthesize w text).
Proof. unfold synthesize. repeat keeps_step. Qed.

Lemma keeps_run_voice_agent w m : keeps f (Agent.run_voice_agent w m).
Proof.
  unfold Agent.run_voice_agent, Agent._call_openai, Agent.create.
  repeat keeps_step.
Qed.

Lemma keeps_push w p fu : keeps f (_handle_push_notification w p fu).
Proof.
  unfold _handle_push_notification, PushoverClient.send_message.
  repeat keeps_step.
Qed.

Lemma keeps_email w p fu : keeps f (_handle_send_email w p fu).
Proof.
  unfold _handle_send_email, SendGridClient.send_email.
  repeat keeps_step.
Qed.

Lemma keeps_smalltalk w p fu : keeps f (_handle_smalltalk w p fu).
Proof. unfold _handle_smalltalk. repeat keeps_step. Qed.

Lemma keeps_clarification w p fu : keeps f (_handle_clarification w p fu).
Proof. unfold _handle_clarification. repeat keeps_step. Qed.

Lemma keeps_unknown w p fu : keeps f (_handle_unknown w p fu).
Proof. unfold _handle_unknown. repeat keeps_step. Qed.

(** The calendar handler, given that the sync keeps [f]. *)
Lemma keeps_calendar w p fu :
  (forall events, keeps f (_sync_calendar_events w events)) ->
  keeps f (_handle_calendar_lookup w p fu).
Proof.
  intro Hsync.
  unfold _handle_calendar_lookup, calendar_try,
    GoogleCalendarClient.list_upcoming_events.
  repeat first [ apply Hsync | keeps_step ].
Qed.

End KeepsCode.

Lemma conversations_emit c st :
  db_conversations (snd (emit c st)) = db_conversations st.
Proof. reflexivity. Qed.

Lemma calendar_emit c st :
  db_calendar_events (snd (emit c st)) = db_calendar_events st.
Proof. reflexivity. Qed.

Lemma sync_keeps_conversations w events :
  keeps db_conversations (_sync_calendar_events w events).
Proof.
  intro st. unfold _sync_calendar_events.
  destruct events; [reflexivity|].
  destruct (rbind _ _); reflexivity.
Qed.

Lemma sync_keeps_trace w events :
  keeps trace (_sync_calendar_events w events).
Proof.
  intro st. unfold _sync_calendar_events.
  destruct events; [reflexivity|].
  destruct (rbind _ _); reflexivity.
Qed.

(** *** Post-conditions through [bind] *)

Lemma bind_post {A B} (Q : result B * State -> Prop) (m : M A) (k : A -> M B) :
  (forall a st, Q (k a st)) ->
  (forall e st, Q (Raise e, st)) ->
  forall st, Q (bind m k st).
Proof.
  intros Hk He st. unfold bind.
  destruct (m st) as [[a|e] st1]; auto.
Qed.

Lemma bind_post_keeps {X A B} (f : State -> X)
    (Q : X -> result B * State -> Prop) (m : M A) (k : A -> M B) :
  keeps f m ->
  (forall a st, Q (f st) (k a st)) ->
  (forall e st, Q (f st) (Raise e, st)) ->
  forall st, Q (f st) (bind m k st).
Proof.
  intros Hm Hk He st. unfold bind. specialize (Hm st).
  destruct (m st) as [[a|e] st1]; simpl in Hm; rewrite <- Hm; auto.
Qed.

Lemma keeps_execute_intent {X} (f : State -> X) w i p fu :
  (forall c st, f (snd (emit c st)) = f st) ->
  (forall events, keeps f (_sync_calendar_events w events)) ->
  keeps f (_execute_intent w i p fu).
Proof.
  intros Hemit Hsync. unfold _execute_intent.
  apply keeps_bind; [apply keeps_lift|].
  intros [] ; simpl.
  - now apply keeps_calendar.
  - now apply keeps_push.
  - now apply keeps_email.
  - now apply keeps_smalltalk.
  - now apply keeps_clarification.
  - now apply keeps_unknown.
Qed.

(** The row of the conversation log for a result. *)
Definition log_row (w : World) (r : VoiceInteractionResult) : Conversation :=
  mkConversation (user_id w) (transcription r) (response_text r) (intent r)
    (confidence_percent (confidence r)).

Definition logged (w : World) (before : list Conversation)
    (out : result VoiceInteractionResult * State) : Prop :=
  match out with
  | (Ok r, st') => db_conversations st' = (before ++ [log_row w r])%list
  | (Raise _, st') => db_conversations st' = before
  end.

(** A turn that returns has appended one row to the conversation log,
    the row of its result; a turn that raises has appended none; the rows
    that were there are kept. *)
Theorem turn_logs_one_conversation (w : World) (audio : string) (st : State) :
  logged w (db_conversations st) (handle_audio w audio st).
Proof.
  revert st. unfold handle_audio.
  apply (bind_post_keeps db_conversations (logged w)).
  { apply keeps_try.
    - apply keeps_bind; [apply keeps_transcribe, conversations_emit|].
      intro. apply keeps_ret.
    - intro. apply keeps_ret. }
  2: { intros e st. reflexivity. }
  intros [t errs] st. revert st.
  apply (bind_post_keeps db_conversations (logged w));
    [apply keeps_run_voice_agent, conversations_emit| |intros e st; reflexivity].
  intros ar st. revert st.
  apply (bind_post_keeps db_conversations (logged w));
    [apply keeps_lift| |intros e st; reflexivity].
  intros c st. revert st.
  apply (bind_post_keeps db_conversations (logged w));
    [apply keeps_execute_intent;
     [apply conversations_emit|apply sync_keeps_conversations]
    | |intros e st; reflexivity].
  intros ex st. revert st.
  apply (bind_post_keeps db_conversations (logged w));
    [apply keeps_synthesize, conversations_emit| |intros e st; reflexivity].
  intros a st. unfold bind, _persist_conversation, ret.
  destruct (commit_fault w); [reflexivity|].
  destruct (py_or (h_response_text ex) _); reflexivity.
Qed.

(** *** Who writes the calendar table *)

Lemma select_calendar i :
  select_handler (py_or i (PStr "unknown")) = Ok CalendarLookup ->
  i = PStr "calendar_lookup".
Proof.
  unfold py_or. destruct (truthy i) eqn:T; [|discriminate].
  destruct i; try discriminate. simpl.
  destruct (s =? "calendar_lookup")%string eqn:E.
  - intros _. apply String.eqb_eq in E. now subst.
  - repeat match goal with
           | |- context [if ?b then _ else _] => destruct b
           end; discriminate.
Qed.

Lemma execute_intent_select w i p fu st :
  _execute_intent w i p fu st
  = match select_handler (py_or i (PStr "unknown")) with
    | Ok h => run_handler w h p fu st
    | Raise e => (Raise e, st)
    end.
Proof.
  unfold _execute_intent, bind, lift.
  destruct (select_handler (py_or i (PStr "unknown"))); reflexivity.
Qed.

Lemma keeps_other_handlers w h p fu :
  h <> CalendarLookup -> keeps db_calendar_events (run_handler w h p fu).
Proof.
  intro Hh. destruct h; simpl.
  - contradiction.
  - apply keeps_push, calendar_emit.
  - apply keeps_email, calendar_emit.
  - apply keeps_smalltalk.
  - apply keeps_clarification.
  - apply keeps_unknown.
Qed.

Lemma persist_keeps_calendar w t r i c :
  keeps db_calendar_events (_persist_conversation w t r i c).
Proof.
  intro st. unfold _persist_conversation.
  destruct (commit_fault w); [reflexivity|]. destruct r; reflexivity.
Qed.

Definition table_kept (before : list CalendarEvent)
    (out : result VoiceInteractionResult * State) : Prop :=
  match out with
  | (Ok r, st') =>
      intent r <> PStr "calendar_lookup" -> db_calendar_events st' = before
  | (Raise _, _) => True
  end.

(** Only a calendar lookup writes the table of synced events: a turn that
    returns with any other intent leaves that table as it was. *)
Theorem only_calendar_lookup_writes_events (w : World) (audio : string) (st : State) :
  table_kept (db_calendar_events st) (handle_audio w audio st).
Proof.
  revert st. unfold handle_audio.
  apply (bind_post_keeps db_calendar_events table_kept).
  { apply keeps_try.
    - apply keeps_bind; [apply keeps_transcribe, calendar_emit|].
      intro. apply keeps_ret.
    - intro. apply keeps_ret. }
  2: { intros e st. exact I. }
  intros [t errs] st. revert st.
  apply (bind_post_keeps db_calendar_events table_kept);
    [apply keeps_run_voice_agent, calendar_emit| |intros e st; exact I].
  intros ar st. revert st.
  apply (bind_post_keeps db_calendar_events table_kept);
    [apply keeps_lift| |intros e st; exact I].
  intros c st.
  set (i := dict_get ar "intent" (PStr "unknown")).
  unfold bind at 1. rewrite execute_intent_select.
  destruct (select_handler (py_or i (PStr "unknown"))) as [h|e] eqn:S;
    [|exact I].
  assert (Hh : h = CalendarLookup \/ h <> CalendarLookup)
    by (destruct h; (now left) || (right; discriminate)).
  destruct Hh as [-> | Hh].
  - apply select_calendar in S.
    destruct (run_handler w CalendarLookup _ _ st) as [[ex|e] st1]; [|exact I].
    revert st1.
    apply (bind_post (table_kept (db_calendar_events st)));
      [|intros e st1; exact I].
    intros a st1. revert st1.
    apply (bind_post (table_kept (db_calendar_events st)));
      [|intros e st1; exact I].
    intros _ st1. unfold ret, table_kept. simpl. intro Hne. contradiction.
  - pose proof (keeps_other_handlers w h
                  (py_or (dict_get ar "parameters" (PDict [])) (PDict []))
                  (dict_get ar "follow_up" PNone) Hh st) as Hk.
    destruct (run_handler w h _ _ st) as [[ex|e] st1]; [|exact I].
    simpl in Hk. rewrite <- Hk. clear Hk. revert st1.
    apply (bind_post_keeps db_calendar_events table_kept);
      [apply keeps_synthesize, calendar_emit| |intros e st1; exact I].
    intros a st1. revert st1.
    apply (bind_post_keeps db_calendar_events table_kept);
      [apply persist_keeps_calendar| |intros e st1; exact I].
    intros _ st1. unfold ret, table_kept. simpl. auto.
Qed.

End Frames.

(* ================================================================= *)
(** ** Which remote calls a computation can make *)

Module Calls.
Import Py Datetime Effects Clients Assistant Scenarios.
Import Frames.

Section Only.
Variable allowed : call -> Prop.

(** Every call in the trace after [m] was there before or is [allowed]. *)
Definition only_calls {A} (m : M A) : Prop :=
  forall st c, In c (trace (snd (m st))) -> In c (trace st) \/ allowed c.

Lemma only_ret {A} (a : A) : only_calls (ret a).
Proof. intros st c H. now left. Qed.

Lemma only_throw {A} (e : exn) : only_calls (@throw A e).
Proof. intros st c H. now left. Qed.

Lemma only_lift {A} (r : result A) : only_calls (lift r).
Proof. intros st c H. now left. Qed.

Lemma only_emit c : allowed c -> only_calls (emit c).
Proof.
  intros Hc st c' H. simpl in H. apply in_app_iff in H.
  destruct H as [H|[<-|[]]]; auto.
Qed.

Lemma only_bind {A B} (m : M A) (k : A -> M B) :
  only_calls m -> (forall a, only_calls (k a)) -> only_calls (bind m k).
Proof.
  intros Hm Hk st c. unfold bind. specialize (Hm st c).
  destruct (m st) as [[a|e] st1]; simpl in *.
  - intro H. destruct (Hk a st1 c H); auto.
  - exact Hm.
Qed.

Lemma only_try {A} (m : M A) (h : exn -> M A) :
  only_calls m -> (forall e, only_calls (h e)) -> only_calls (try_except m h).
Proof.
  intros Hm Hh st c. unfold try_except. specialize (Hm st c).
  destruct (m st) as [[a|e] st1]; simpl in *.
  - exact Hm.
  - intro H. destruct (Hh e st1 c H); auto.
Qed.

Lemma only_keeps {A} (m : M A) : keeps trace m -> only_calls m.
Proof. intros H st c Hin. rewrite (H st) in Hin. now left. Qed.

End Only.

Lemma only_weaken {A} (P Q : call -> Prop) (m : M A) :
  (forall c, P c -> Q c) -> only_calls P m -> only_calls Q m.
Proof. intros HPQ H st c Hin. destruct (H st c Hin); auto. Qed.

Ltac only_step :=
  first
    [ apply only_ret | apply only_throw | apply only_lift
    | apply only_bind | apply only_try
    | match goal with
      | |- only_calls _ (if ?b then _ else _) => destruct b
      | |- only_calls _ (match ?x with _ => _ end) => destruct x
      | |- forall _, _ => intro
      end ].

(** The integration a handler belongs to. *)
Definition service_of (h : handler_name) (c : call) : Prop :=
  match h, c with
  | CalendarLookup, CallCalendar _ _ _ => True
  | PushNotification, CallPushover _ _ _ => True
  | SendEmail, CallSendGrid _ _ _ _ => True
  | _, _ => False
  end.

(** A handler reaches its own integration and no other: the push handler
    Pushover, the e-mail handler SendGrid, the calendar handler Google
    Calendar; small talk, clarification and the default handler make no
    remote call at all. *)
Theorem handlers_call_only_their_service
    (w : World) (h : handler_name) (parameters follow_up : pyval) :
  only_calls (service_of h) (run_handler w h parameters follow_up).
Proof.
  destruct h; simpl.
  - unfold _handle_calendar_lookup, calendar_try,
      GoogleCalendarClient.list_upcoming_events.
    repeat first [ apply only_keeps, sync_keeps_trace
                 | apply only_emit; exact I
                 | only_step ].
  - unfold _handle_push_notification, PushoverClient.send_message.
    repeat first [ apply only_emit; exact I | only_step ].
  - unfold _handle_send_email, SendGridClient.send_email.
    repeat first [ apply only_emit; exact I | only_step ].
  - unfold _handle_smalltalk. repeat only_step.
  - unfold _handle_clarification. repeat only_step.
  - unfold _handle_unknown. repeat only_step.
Qed.

Lemma only_transcribe w audio :
  only_calls (fun c => c = CallTranscribe audio) (transcribe w audio).
Proof.
  unfold transcribe.
  repeat first [ apply only_emit; reflexivity | only_step ].
Qed.

Lemma only_synthesize w s :
  only_calls (fun c => c = CallSynthesize s) (synthesize w (PStr s)).
Proof.
  unfold synthesize.
  repeat first [ apply only_emit; reflexivity | only_step ].
Qed.

Lemma only_transcription_stage w audio :
  only_calls (fun c => c = CallTranscribe audio)
    (TurnProps.transcription_stage w audio).
Proof.
  unfold TurnProps.transcription_stage.
  repeat first [ apply only_transcribe | only_step ].
Qed.

End Calls.

(* ================================================================= *)
(** ** Further properties of the turn *)

Module TurnExtras.
Import Py Datetime Effects Clients Assistant Scenarios.
Import Agent HandlerProps TurnProps Frames Calls.

(** The stages of [handle_audio], one after the other. *)
Lemma turn_compose w audio st t0 errs st0 ar st1 c ex st2 a st3 :
  transcription_stage w audio st = (Ok (t0, errs), st0) ->
  run_voice_agent w (heard t0) st0 = (Ok ar, st1) ->
  py_float w (dict_get ar "confidence" (PFloat 0)) = Ok c ->
  _execute_intent w (dict_get ar "intent" (PStr "unknown"))
    (py_or (dict_get ar "parameters" (PDict [])) (PDict []))
    (dict_get ar "follow_up" PNone) st1 = (Ok ex, st2) ->
  synthesize w
    (py_or (h_response_text ex)
       (dict_get ar "summary" (PStr "I processed your request."))) st2
  = (Ok a, st3) ->
  handle_audio w audio st
  = (_persist_conversation w (heard t0)
       (py_or (h_response_text ex)
          (dict_get ar "summary" (PStr "I processed your request.")))
       (dict_get ar "intent" (PStr "unknown")) c ;;;
     ret (mkResult (heard t0)
            (py_or (h_response_text ex)
               (dict_get ar "summary" (PStr "I processed your request.")))
            a (dict_get ar "intent" (PStr "unknown")) c
            (h_calendar_events ex) (h_notifications ex)
            (errs ++ h_errors ex)%list)) st3.
Proof.
  intros Hst Hrun Hc Hex Hsyn.
  unfold handle_audio. fold (transcription_stage w audio).
  unfold bind at 1. rewrite Hst. cbv beta iota. fold (heard t0).
  unfold bind at 1. rewrite Hrun.
  unfold bind at 1. unfold lift at 1. rewrite Hc.
  unfold bind at 1. rewrite Hex.
  unfold bind at 1. rewrite Hsyn.
  reflexivity.
Qed.




Lemma persist_ok w t s i c st :
  commit_fault w = None ->
  _persist_conversation w t (PStr s) i c st
  = (Ok tt,
     mkState (db_calendar_events st)
       (db_conversations st
        ++ [mkConversation (user_id w) t (PStr s) i (confidence_percent c)])
       (trace st)).
Proof. intro H. unfold _persist_conversation. now rewrite H. Qed.

(** Without a client for the language model, a turn whose commit succeeds
    always answers the fixed sentence of the default handler, with intent
    ["unknown"], confidence 0 and no event or notification; the only
    remote calls it can make are the transcription of the audio and the
    synthesis of that sentence. *)
Theorem turn_without_classifier_client
    (w : World) (audio : string) (st : State) :
  agent_client w = false ->
  commit_fault w = None ->
  exists r st',
    handle_audio w audio st = (Ok r, st')
    /\ intent r = PStr "unknown"
    /\ confidence r = 0%Q
    /\ response_text r
       = PStr "I'm not sure how to help with that yet, but I'm learning every day!"
    /\ calendar_events r = []
    /\ notifications r = []
    /\ forall c, In c (trace st') ->
         In c (trace st) \/ c = CallTranscribe audio
         \/ c = CallSynthesize
                  "I'm not sure how to help with that yet, but I'm learning every day!".
Proof.
  intros Hno Hdb.
  destruct (transcription_stage_returns w audio st) as (t0 & errs & st0 & Hst & _).
  assert (Hrun : run_voice_agent w (heard t0) st0 = (Ok unconfigured_reply, st0)).
  { unfold run_voice_agent. now rewrite Hno. }
  destruct (synthesize_text_returns w unhandled_reply st0) as (a & st3 & Hsyn).
  pose proof (turn_compose w audio st t0 errs st0 unconfigured_reply st0 0%Q
                (mkHandler (PStr unhandled_reply) [] [] []) st0 a st3
                Hst Hrun eq_refl eq_refl Hsyn) as Hturn.
  change (py_or (h_response_text (mkHandler (PStr unhandled_reply) [] [] []))
            (dict_get unconfigured_reply "summary" (PStr "I processed your request.")))
    with (PStr unhandled_reply) in Hturn.
  do 2 eexists. split.
  { rewrite Hturn. unfold bind. rewrite (persist_ok w _ _ _ _ st3 Hdb). reflexivity. }
  simpl. repeat split.
  intros c Hin.
  pose proof (only_synthesize w unhandled_reply st0 c) as Hs.
  rewrite Hsyn in Hs. simpl in Hs.
  destruct (Hs Hin) as [H0 | ->]; [|auto].
  pose proof (only_transcription_stage w audio st c) as Ht.
  rewrite Hst in Ht. simpl in Ht.
  destruct (Ht H0); auto.
Qed.

Lemma turn_without_classifier_client_witness :
  exists r st',
    handle_audio offline "hello.wav" empty_state = (Ok r, st')
    /\ intent r = PStr "unknown"
    /\ confidence r = 0%Q
    /\ response_text r
       = PStr "I'm not sure how to help with that yet, but I'm learning every day!"
    /\ calendar_events r = []
    /\ notifications r = []
    /\ forall c, In c (trace st') ->
         In c (trace empty_state) \/ c = CallTranscribe "hello.wav"
         \/ c = CallSynthesize
                  "I'm not sure how to help with that yet, but I'm learning every day!".
Proof.
  apply (turn_without_classifier_client offline "hello.wav" empty_state);
    reflexivity.
Defined.

End TurnExtras.

(* ================================================================= *)
(** ** Further properties of the calendar handler *)

Module CalendarExtras.
Import Py Datetime Effects Clients Assistant Scenarios.
Import HandlerProps TurnProps Frames Calls.

(** An event as the provider sends it: a mapping whose [start] and [end],
    when present, are mappings with textual [dateTime] and [date]. *)
Definition timed (d : dict) (k : string) : Prop :=
  exists t, dict_get d k (PDict []) = PDict t
            /\ text_or_none (dict_get t "dateTime" PNone)
            /\ text_or_none (dict_get t "date" PNone).

Definition well_formed_event (e : pyval) : Prop :=
  exists d, e = PDict d /\ timed d "start" /\ timed d "end".

Lemma event_time_timed d k :
  timed d k ->
  exists v, event_time (PDict d) k = Ok v /\ text_or_none v.
Proof.
  intros (t & Ht & Hdt & Hd).
  unfold event_time, py_get, rbind. rewrite Ht.
  destruct (truthy (dict_get t "dateTime" PNone)); eauto.
Qed.

Lemma format_datetime_text v :
  text_or_none v -> exists s, _format_datetime v = Ok s.
Proof.
  destruct v; try contradiction; intros _; unfold _format_datetime.
  - simpl. eauto.
  - destruct (negb (truthy (PStr s))); [eauto|].
    destruct (fromisoformat (replace_Z s)); eauto.
Qed.

Lemma format_entry_returns w e :
  well_formed_event e -> exists line, format_entry w e = Ok line.
Proof.
  intros (d & -> & Hs & He).
  destruct (event_time_timed d "start" Hs) as (start & Hst & Tst).
  destruct (event_time_timed d "end" He) as (end_ & Hen & Ten).
  destruct (format_datetime_text start Tst) as (sd & Hsd).
  unfold format_entry, rbind. rewrite Hst, Hen. simpl py_get. cbv iota beta.
  rewrite Hsd.
  destruct (truthy end_).
  - destruct (format_datetime_text end_ Ten) as (ed & Hed).
    rewrite Hed. eauto.
  - eauto.
Qed.

Lemma format_entries_returns w events :
  Forall well_formed_event events ->
  exists entries,
    format_entries w events = Ok entries
    /\ List.length entries = List.length events.
Proof.
  induction 1 as [|e events He _ IH]; simpl.
  - eauto.
  - destruct (format_entry_returns w e He) as [line Hl].
    destruct IH as (entries & Hes & Hlen).
    rewrite Hl, Hes. simpl. eexists. split; [reflexivity|]. simpl. now rewrite Hlen.
Qed.

(** On well-formed events [_format_calendar_response] does not raise: for
    a non-empty list it returns the header, which states the number of
    events, followed by one entry per event. *)
Theorem format_calendar_response_lines
    (w : World) (events : list pyval) (keyword : pyval) :
  Forall well_formed_event events ->
  events <> [] ->
  exists entries,
    List.length entries = List.length events
    /\ _format_calendar_response w events keyword
       = Ok (join_lines
               (("Here are your next "
                 ++ str_of_Z (Z.of_nat (List.length events)) ++ " events"
                 ++ (if truthy keyword then " related to " ++ py_str w keyword
                     else "") ++ ":") :: entries)).
Proof.
  intros Hwf Hne.
  destruct (format_entries_returns w events Hwf) as (entries & Hes & Hlen).
  exists entries. split; [exact Hlen|].
  unfold _format_calendar_response.
  destruct events as [|e events]; [contradiction|].
  unfold rbind. rewrite Hes. reflexivity.
Qed.

Lemma format_calendar_response_lines_witness :
  exists entries,
    List.length entries = 2%nat
    /\ _format_calendar_response offline [SyncProps.flight; SyncProps.dinner]
         (PStr "trip")
       = Ok (join_lines ("Here are your next 2 events related to trip:" :: entries)).
Proof.
  apply (format_calendar_response_lines offline
           [SyncProps.flight; SyncProps.dinner] (PStr "trip")).
  - repeat constructor; eexists; (split; [reflexivity|]);
      split; eexists; repeat split; reflexivity || exact I.
  - discriminate.
Defined.

Definition dead_reply : string :=
  "I could not find any matching events in your calendar.".

Lemma format_response_not_dead w events keyword text :
  _format_calendar_response w events keyword = Ok text ->
  text <> "" /\ text <> dead_reply.
Proof.
  unfold _format_calendar_response.
  destruct events as [|e events].
  - intro H. injection H as <-. split; discriminate.
  - destruct (format_entries w (e :: events)) as [entries|]; simpl;
      [|discriminate].
    intro H. injection H as <-. unfold join_lines. simpl.
    destruct entries; split; discriminate.
Qed.

Lemma calendar_try_text w keyword wd mr st :
  exists text events errs st',
    calendar_try w keyword wd mr st = (Ok (text, events, errs), st')
    /\ ((text = "" /\ errs <> [])
        \/ _format_calendar_response w events keyword = Ok text).
Proof.
  unfold calendar_try, try_except, bind, lift, ret.
  destruct (py_int wd) as [a|e];
    [|do 4 eexists; split; [reflexivity|left; split; [reflexivity|discriminate]]].
  destruct (py_int mr) as [b|e];
    [|do 4 eexists; split; [reflexivity|left; split; [reflexivity|discriminate]]].
  destruct (GoogleCalendarClient.list_upcoming_events w keyword a b st)
    as [[events|e] st1];
    [|do 4 eexists; split; [reflexivity|left; split; [reflexivity|discriminate]]].
  destruct (_format_calendar_response w events keyword) as [text|e] eqn:F;
    [|do 4 eexists; split; [reflexivity|left; split; [reflexivity|discriminate]]].
  destruct (_sync_calendar_events w events st1) as [[u|e] st2];
    do 4 eexists; (split; [reflexivity|right; exact F]).
Qed.

(** The sentence "I could not find any matching events in your calendar."
    is never the reply of [_handle_calendar_lookup]: whenever the error
    list is empty the formatter has already produced a non-empty text. *)
Theorem calendar_lookup_never_uses_its_fallback
    (w : World) (parameters follow_up : pyval) (st : State) :
  match _handle_calendar_lookup w parameters follow_up st with
  | (Ok r, _) =>
      h_response_text r
      <> PStr "I could not find any matching events in your calendar."
  | (Raise _, _) => True
  end.
Proof.
  destruct parameters as [| | | | | |d]; try exact I.
  unfold _handle_calendar_lookup, bind, lift.
  rewrite get_or_value. simpl py_get. cbv iota beta.
  destruct (negb (GoogleCalendarClient.is_configured w)).
  - simpl. discriminate.
  - destruct (calendar_try_text w
                (py_or (dict_get d "keyword" PNone) (dict_get d "subject" PNone))
                (dict_get d "within_days" (PInt 7))
                (dict_get d "max_results" (PInt 5)) st)
      as (text & events & errs & st' & Htry & Hcase).
    rewrite Htry. unfold ret.
    destruct Hcase as [[-> Herr] | Hfmt].
    + destruct errs; [contradiction|]. simpl. discriminate.
    + destruct (format_response_not_dead _ _ _ _ Hfmt) as [Hne Hdead].
      apply String.eqb_neq in Hne. rewrite Hne. simpl.
      intro E. injection E as E. contradiction.
Qed.

End CalendarExtras.

(* ================================================================= *)
(** ** Further properties of the classifier adapter *)

Module AgentExtras.
Import Py Datetime Effects Clients Assistant Scenarios.
Import Agent AgentProps.

Lemma lookup_app (d1 d2 : dict) k :
  lookup (d1 ++ d2)%list k
  = match lookup d1 k with Some v => Some v | None => lookup d2 k end.
Proof.
  induction d1 as [|[k' v] d1 IH]; simpl; [reflexivity|].
  destruct (k' =? k)%string; auto.
Qed.

Lemma lookup_setdefault d k v k' :
  lookup (setdefault d k v) k'
  = match lookup d k' with
    | Some x => Some x
    | None => if (k =? k')%string then Some v else None
    end.
Proof.
  unfold setdefault. destruct (lookup d k) as [x|] eqn:E.
  - destruct (lookup d k') eqn:E'; [reflexivity|].
    destruct (k =? k')%string eqn:K; [|reflexivity].
    apply String.eqb_eq in K. subst. congruence.
  - rewrite lookup_app. simpl. destruct (lookup d k'); reflexivity.
Qed.

(** When the model's answer parses to a mapping, the adapter returns that
    mapping with nothing overridden: every key the model sent keeps its
    value, an absent [parameters], [confidence] or [summary] is filled with
    the empty mapping, 0.0 and the raw answer, and no other key is added; in
    particular an absent [intent] stays absent. *)
Theorem normalize_only_fills_missing_fields
    (w : World) (payload : string) (data : dict) :
  json_loads w payload = Some (PDict data) ->
  (forall k v, lookup data k = Some v -> lookup (normalize w payload) k = Some v)
  /\ (lookup data "parameters" = None ->
      lookup (normalize w payload) "parameters" = Some (PDict []))
  /\ (lookup data "confidence" = None ->
      lookup (normalize w payload) "confidence" = Some (PFloat 0))
  /\ (lookup data "summary" = None ->
      lookup (normalize w payload) "summary" = Some (PStr payload))
  /\ (forall k, k <> "parameters" -> k <> "confidence" -> k <> "summary" ->
      lookup (normalize w payload) k = lookup data k).
Proof.
  intro H. unfold normalize. rewrite H.
  repeat split.
  - intros k v Hk. rewrite !lookup_setdefault, Hk. reflexivity.
  - intro Hk. rewrite !lookup_setdefault, Hk. reflexivity.
  - intro Hk. rewrite !lookup_setdefault, Hk. simpl.
    destruct (lookup data "confidence"); [discriminate|reflexivity].
  - intro Hk. rewrite !lookup_setdefault, Hk. reflexivity.
  - intros k H1 H2 H3. rewrite !lookup_setdefault.
    destruct (lookup data k); [reflexivity|].
    apply not_eq_sym, String.eqb_neq in H1, H2, H3.
    now rewrite H1, H2, H3.
Qed.

(** The model answers a mapping that has no intent. *)
Definition vague_model : World :=
  make_world (Some (Ok "{json}"))
    (Some (PDict [("confidence", PFloat (1 # 2)); ("note", PStr "hm")]))
    None false false.

Lemma normalize_only_fills_missing_fields_witness :
  lookup (normalize vague_model "{json}") "confidence" = Some (PFloat (1 # 2))
  /\ lookup (normalize vague_model "{json}") "summary" = Some (PStr "{json}")
  /\ lookup (normalize vague_model "{json}") "intent" = None.
Proof.
  pose proof (normalize_only_fills_missing_fields vague_model "{json}"
                [("confidence", PFloat (1 # 2)); ("note", PStr "hm")] eq_refl)
    as (Hkeep & _ & _ & Hsum & Hother).
  split; [|split].
  - apply Hkeep. reflexivity.
  - apply Hsum. reflexivity.
  - rewrite Hother; [reflexivity|discriminate..].
Defined.




End AgentExtras.

(* ================================================================= *)
(** ** Further properties of the notification handlers *)

Module HandlerExtras.
Import Py Datetime Effects Clients Assistant Scenarios.
Import HandlerProps TurnProps Frames Calls.

(** How a notification handler can end: with a question, with one
    notification of its channel and no error, or with one error and no
    notification. *)
Inductive outcome (channel sent failed : string) (questions : list string)
  : HandlerResult -> Prop :=
| asked q :
    In q questions ->
    outcome channel sent failed questions (mkHandler (PStr q) [] [] [])
| delivered result :
    outcome channel sent failed questions
      (mkHandler (PStr sent) []
         [PDict [("channel", PStr channel); ("result", result)]] [])
| undelivered err :
    outcome channel sent failed questions
      (mkHandler (PStr failed) [] [] [err]).

(** Whatever the parameters and the service do, a result returned by
    [_handle_push_notification] says "I sent your push notification."
    exactly when it carries one pushover notification and no error, and
    "I could not send the push notification." exactly when it carries one
    error and no notification; otherwise it is the question about the
    message. *)
Theorem push_notification_outcomes
    (w : World) (parameters follow_up : pyval) (st : State) :
  match _handle_push_notification w parameters follow_up st with
  | (Ok r, _) =>
      outcome "pushover" "I sent your push notification."
        "I could not send the push notification."
        ["What would you like me to include in the push notification?"] r
  | (Raise _, st') => st' = st
  end.
Proof.
  destruct parameters as [| | | | | |d]; try reflexivity.
  unfold _handle_push_notification, bind, lift.
  rewrite get_or_value. simpl py_get. cbv iota beta.
  destruct (py_int (dict_get d "priority" (PInt 0))) as [z|e]; [|reflexivity].
  destruct (negb (truthy _)).
  { apply asked. now left. }
  destruct (negb (PushoverClient.is_configured w)) eqn:C.
  { apply undelivered. }
  unfold try_except, PushoverClient.send_message, bind, emit, lift, ret.
  rewrite C.
  destruct (pushover_post w _ _ z).
  - apply delivered.
  - apply undelivered.
Qed.

(** The same for [_handle_send_email], which has two questions and never
    raises on a mapping. *)
Theorem send_email_outcomes
    (w : World) (d : dict) (follow_up : pyval) (st : State) :
  exists r st',
    _handle_send_email w (PDict d) follow_up st = (Ok r, st')
    /\ outcome "sendgrid" "I sent the email as requested."
         "I could not send the email."
         ["Who should I email? Please provide an email address.";
          "What would you like me to say in the email?"] r.
Proof.
  unfold _handle_send_email, bind, lift.
  rewrite !get_or_value. simpl py_get. cbv iota beta.
  destruct (negb (truthy (py_or (dict_get d "to_email" PNone) _))).
  { do 2 eexists. split; [reflexivity|]. apply asked. now left. }
  destruct (negb (truthy (py_or (dict_get d "body" PNone) _))).
  { do 2 eexists. split; [reflexivity|]. apply asked. right. now left. }
  destruct (negb (SendGridClient.is_configured w)) eqn:C.
  { do 2 eexists. split; [reflexivity|]. apply undelivered. }
  unfold try_except, SendGridClient.send_email, bind, emit, lift, ret.
  rewrite C. simpl.
  destruct (sendgrid_post w _ _ _ _);
    do 2 eexists; (split; [reflexivity|]).
  - apply delivered.
  - apply undelivered.
Qed.

(** Without credentials, the three integration handlers make no remote
    call and change nothing: each returns with its "not configured" error. *)
Theorem unconfigured_integrations_are_not_called
    (w : World) (d : dict) (follow_up : pyval) (st : State) :
  (GoogleCalendarClient.is_configured w = false ->
   _handle_calendar_lookup w (PDict d) follow_up st
   = (Ok (mkHandler (PStr "") [] []
            ["Google Calendar integration is not configured. Set GOOGLE_SERVICE_ACCOUNT_FILE or GOOGLE_SERVICE_ACCOUNT_JSON."]),
      st))
  /\ (PushoverClient.is_configured w = false ->
      forall r st',
        _handle_push_notification w (PDict d) follow_up st = (Ok r, st') ->
        st' = st
        /\ (h_errors r = []
            \/ h_errors r = ["Pushover credentials are not configured."]))
  /\ (SendGridClient.is_configured w = false ->
      forall r st',
        _handle_send_email w (PDict d) follow_up st = (Ok r, st') ->
        st' = st
        /\ (h_errors r = []
            \/ h_errors r = ["SendGrid credentials are not configured."])).
Proof.
  split; [|split]; intro C.
  - unfold _handle_calendar_lookup, bind, lift.
    rewrite get_or_value. simpl py_get. cbv iota beta. rewrite C. reflexivity.
  - intros r st'. unfold _handle_push_notification, bind, lift.
    rewrite get_or_value. simpl py_get. cbv iota beta.
    destruct (py_int (dict_get d "priority" (PInt 0))); [|discriminate].
    destruct (negb (truthy _)).
    + intro H. injection H as <- <-. auto.
    + rewrite C. simpl. intro H. injection H as <- <-. auto.
  - intros r st'. unfold _handle_send_email, bind, lift.
    rewrite !get_or_value. simpl py_get. cbv iota beta.
    destruct (negb (truthy (py_or (dict_get d "to_email" PNone) _))).
    { intro H. injection H as <- <-. auto. }
    destruct (negb (truthy (py_or (dict_get d "body" PNone) _))).
    { intro H. injection H as <- <-. auto. }
    rewrite C. simpl. intro H. injection H as <- <-. auto.
Qed.

Lemma unconfigured_integrations_witness :
  _handle_calendar_lookup offline (PDict [("keyword", PStr "flight")]) PNone
    empty_state
  = (Ok (mkHandler (PStr "") [] []
           ["Google Calendar integration is not configured. Set GOOGLE_SERVICE_ACCOUNT_FILE or GOOGLE_SERVICE_ACCOUNT_JSON."]),
     empty_state)
  /\ (empty_state = empty_state
      /\ (h_errors (mkHandler (PStr "I could not send the push notification.") [] []
                      ["Pushover credentials are not configured."]) = []
          \/ h_errors (mkHandler (PStr "I could not send the push notification.") [] []
                         ["Pushover credentials are not configured."])
             = ["Pushover credentials are not configured."])).
Proof.
  pose proof (unconfigured_integrations_are_not_called offline
                [("keyword", PStr "flight"); ("message", PStr "Boarding at 5")]
                PNone empty_state) as (Hc & Hp & _).
  split.
  - apply (proj1 (unconfigured_integrations_are_not_called offline
                    [("keyword", PStr "flight")] PNone empty_state)).
    reflexivity.
  - apply (Hp eq_refl). reflexivity.
Defined.

End HandlerExtras.

(* ================================================================= *)
(** ** Further properties of the calendar-sync upsert *)

Module SyncExtras.
Import Py Datetime Effects Clients Assistant Scenarios.
Import HandlerProps TurnProps SyncProps CalendarExtras.

(** [y] is the row [x] after a run for user [uid]: same primary key, user
    and external id, and the very same row when it belongs to another
    user. *)
Definition same_identity (uid : Z) (x y : CalendarEvent) : Prop :=
  ce_id y = ce_id x
  /\ ce_user_id y = ce_user_id x
  /\ ce_external_id y = ce_external_id x
  /\ (ce_user_id x <> uid -> y = x).

Lemma same_identity_refl uid x : same_identity uid x x.
Proof. repeat split. Qed.

Lemma same_identity_trans uid x y z :
  same_identity uid x y -> same_identity uid y z -> same_identity uid x z.
Proof.
  intros (H1 & H2 & H3 & H4) (G1 & G2 & G3 & G4).
  repeat split; try congruence.
  intro Hne. rewrite <- (H4 Hne). apply G4. congruence.
Qed.

Lemma Forall2_refl {A} (R : A -> A -> Prop) (l : list A) :
  (forall x, R x x) -> Forall2 R l l.
Proof. intro H. induction l; constructor; auto. Qed.

Lemma Forall2_map_in {A} (R : A -> A -> Prop) (f : A -> A) (l : list A) :
  (forall x, In x l -> R x (f x)) -> Forall2 R l (map f l).
Proof.
  induction l as [|a l IH]; simpl; intro H; constructor.
  - apply H. now left.
  - apply IH. intros x Hx. apply H. now right.
Qed.

Lemma Forall2_trans {A} (R : A -> A -> Prop) :
  (forall x y z, R x y -> R y z -> R x z) ->
  forall l1 l2 l3, Forall2 R l1 l2 -> Forall2 R l2 l3 -> Forall2 R l1 l3.
Proof.
  intros HR l1 l2 l3 H12. revert l3.
  induction H12; intros l3 H23; inversion H23; subst; constructor; eauto.
Qed.

Lemma sync_event_identity w e rows added rows' added' :
  sync_event w e (rows, added) = Ok (rows', added') ->
  Forall2 (same_identity (user_id w)) rows rows'
  /\ exists fresh, added' = (added ++ fresh)%list
                   /\ Forall (fun r => ce_user_id r = user_id w) fresh.
Proof.
  intro H. destruct (sync_event_needs_dict _ _ _ _ H) as [d ->].
  rewrite sync_event_dict in H.
  destruct (negb (truthy (dict_get d "id" PNone))).
  { injection H as <- <-. split; [apply Forall2_refl, same_identity_refl|].
    exists []. rewrite app_nil_r. auto. }
  destruct (event_times (PDict d)) as [[sdt edt]|]; [|discriminate].
  unfold one_or_none in H.
  destruct (negb (bindable (dict_get d "id" PNone))); [discriminate|].
  destruct (filter (matches (user_id w) (dict_get d "id" PNone)) rows)
    as [|r [|r' l]] eqn:F; try discriminate; injection H as <- <-.
  - split; [apply Forall2_refl, same_identity_refl|].
    eexists. split; [reflexivity|]. repeat constructor.
  - split.
    + apply Forall2_map_in. intros x Hin.
      destruct (matches (user_id w) (dict_get d "id" PNone) x) eqn:M;
        [|apply same_identity_refl].
      rewrite (filter_single_in _ _ _ _ F Hin M).
      repeat split. intro Hne. exfalso. apply Hne.
      assert (Hr : In r (filter (matches (user_id w) (dict_get d "id" PNone)) rows))
        by (rewrite F; now left).
      apply filter_In in Hr. destruct Hr as [_ Hr].
      unfold matches in Hr. apply andb_true_iff in Hr.
      destruct Hr as [Hr _]. now apply Z.eqb_eq in Hr.
    + exists []. rewrite app_nil_r. auto.
Qed.

Lemma sync_loop_identity w : forall events rows added rows' added',
  sync_loop w events (rows, added) = Ok (rows', added') ->
  Forall2 (same_identity (user_id w)) rows rows'
  /\ exists fresh, added' = (added ++ fresh)%list
                   /\ Forall (fun r => ce_user_id r = user_id w) fresh.
Proof.
  induction events as [|e events IH]; cbn [sync_loop];
    intros rows added rows' added' H.
  - injection H as <- <-. split; [apply Forall2_refl, same_identity_refl|].
    exists []. rewrite app_nil_r. auto.
  - unfold rbind in H.
    destruct (sync_event w e (rows, added)) as [[r1 a1]|] eqn:E; [|discriminate].
    destruct (sync_event_identity _ _ _ _ _ _ E) as (H1 & f1 & -> & F1).
    destruct (IH _ _ _ _ H) as (H2 & f2 & -> & F2).
    split.
    + eapply Forall2_trans; eauto using same_identity_trans.
    + exists (f1 ++ f2)%list. rewrite app_assoc. split; [reflexivity|].
      apply Forall_app. auto.
Qed.

Lemma assign_ids_users uid added : forall n,
  Forall (fun r => ce_user_id r = uid) added ->
  Forall (fun r => ce_user_id r = uid) (assign_ids n added).
Proof.
  induction added as [|a added IH]; intros n H; simpl; [constructor|].
  inversion H; subst. constructor; auto.
Qed.

(** [_sync_calendar_events] never deletes: its table afterwards is the
    table before, row by row with the same primary key, user and external
    id, followed by the rows it inserted, which all belong to the
    assistant's user; a row of another user is not changed; and when the
    run raises, the table is exactly what it was. *)
Theorem sync_never_deletes (w : World) (events : list pyval) (st : State) :
  (exists kept inserted,
     db_calendar_events (snd (_sync_calendar_events w events st))
     = (kept ++ inserted)%list
     /\ Forall2 (same_identity (user_id w)) (db_calendar_events st) kept
     /\ Forall (fun r => ce_user_id r = user_id w) inserted)
  /\ (forall exc, fst (_sync_calendar_events w events st) = Raise exc ->
      snd (_sync_calendar_events w events st) = st).
Proof.
  unfold _sync_calendar_events.
  assert (Hsame : exists kept inserted,
             db_calendar_events st = (kept ++ inserted)%list
             /\ Forall2 (same_identity (user_id w)) (db_calendar_events st) kept
             /\ Forall (fun r => ce_user_id r = user_id w) inserted).
  { exists (db_calendar_events st), []. rewrite app_nil_r.
    repeat split; auto. apply Forall2_refl, same_identity_refl. }
  destruct events as [|e events]; [split; [exact Hsame|discriminate]|].
  unfold rbind.
  destruct (sync_loop w (e :: events) (db_calendar_events st, []))
    as [[rows added]|exc] eqn:L; [|split; [exact Hsame|reflexivity]].
  unfold commit_events.
  destruct (commit_fault w); [split; [exact Hsame|reflexivity]|].
  destruct (existsb null_title (rows ++ added));
    [split; [exact Hsame|reflexivity]|].
  split; [|discriminate]. simpl.
  destruct (sync_loop_identity _ _ _ _ _ _ L) as (H1 & fresh & -> & F).
  exists rows, (assign_ids (next_id rows) fresh).
  repeat split; auto. now apply assign_ids_users.
Qed.

Definition doubled : State :=
  mkState [flight_row; set_id 2 flight_row] [] [].

Lemma sync_never_deletes_witness :
  snd (_sync_calendar_events offline [flight] doubled) = doubled.
Proof.
  apply (proj2 (sync_never_deletes offline [flight] doubled)
           (mkExn MultipleResultsFound
              "Multiple rows were found when one or none was required")).
  reflexivity.
Defined.

(** The display of a time and its storage agree: [_format_datetime] shows
    a formatted time exactly for the values [_parse_datetime] turns into a
    [datetime], and both raise on the same values. *)
Theorem format_and_parse_agree (value : pyval) :
  match _parse_datetime value with
  | Ok (Some dt) => _format_datetime value = Ok (strftime_display dt)
  | Ok None =>
      _format_datetime value = Ok "an unspecified time"
      \/ exists s, value = PStr s /\ _format_datetime value = Ok s
  | Raise exc => _format_datetime value = Raise exc
  end.
Proof.
  unfold _parse_datetime, _format_datetime.
  destruct (negb (truthy value)); [now left|].
  destruct value; try reflexivity.
  destruct (fromisoformat (replace_Z s)); [reflexivity|].
  right. eauto.
Qed.

(** *** The run commits on well-formed input *)


(** A table as the schema and the upsert keep it: titles are not null and
    a user has at most one row per external id. *)
Definition sound_table (uid : Z) (rows : list CalendarEvent) : Prop :=
  Forall (fun r => null_title r = false) rows
  /\ forall s, (count_rows uid s rows <= 1)%nat.



Lemma existsb_null_false l :
  existsb null_title l = false <-> Forall (fun r => null_title r = false) l.
Proof.
  induction l as [|a l IH]; simpl.
  - split; auto.
  - rewrite orb_false_iff, IH. split.
    + intros [H1 H2]. constructor; auto.
    + intro H. inversion H; auto.
Qed.








(** *** The invariant of the table *)

(** A run that commits on events with distinct string ids keeps the table
    sound: titles stay not null and the user still has at most one row per
    external id. *)
Theorem sync_keeps_table_sound
    (w : World) (events : list pyval) (st st1 : State) :
  Forall string_id events ->
  NoDup (external_ids events) ->
  sound_table (user_id w) (db_calendar_events st) ->
  _sync_calendar_events w events st = (Ok tt, st1) ->
  sound_table (user_id w) (db_calendar_events st1).
Proof.
  intros Hid Hnd [Hnull Hcount] H.
  unfold _sync_calendar_events in H.
  destruct events as [|e es]; [injection H as <-; now split|].
  remember (e :: es) as events eqn:Hev. clear Hev e es.
  unfold rbind in H.
  destruct (sync_loop w events (db_calendar_events st, []))
    as [[rows added]|exc] eqn:L; [|discriminate].
  unfold commit_events in H.
  destruct (commit_fault w); [discriminate|].
  destruct (existsb null_title (rows ++ added)) eqn:N; [discriminate|].
  injection H as <-. simpl. split.
  - apply existsb_null_false.
    rewrite existsb_app, existsb_assign_ids, <- existsb_app. exact N.
  - intro s. unfold count_rows.
    destruct (in_dec string_dec s (external_ids events)) as [Hin|Hout].
    + pose proof (sync_loop_upserts w _ _ _ _ _ L Hid Hnd (fun _ _ => eq_refl))
        as Hup.
      destruct (external_ids_in _ _ Hin) as (d & Hd & Hs & Hne).
      rewrite Forall_forall in Hup.
      pose proof (upserted_settled _ _ _ _ (next_id rows) (Hup _ Hd))
        as (d' & E & Hcase).
      injection E as <-.
      destruct Hcase as [T | (s' & sdt & edt & x & Hs' & _ & F & _)].
      * rewrite Hs in T. simpl in T.
        apply negb_false_iff, String.eqb_eq in T. contradiction.
      * rewrite Hs in Hs'. injection Hs' as <-. rewrite F. simpl. lia.
    + destruct (sync_loop_frame w s _ _ _ _ _ L Hid Hout) as [F1 F2].
      simpl in F2.
      pose proof (filter_assign_ids (matches (user_id w) (PStr s))
                    (fun k y => eq_refl) added (next_id rows)) as FA.
      rewrite F2 in FA.
      assert (E : filter (matches (user_id w) (PStr s))
                    (assign_ids (next_id rows) added) = [])
        by (inversion FA; reflexivity).
      rewrite filter_app, F1, E, app_nil_r. apply Hcount.
Qed.

Lemma sync_keeps_table_sound_witness :
  sound_table 1 [flight_row; dinner_row].
Proof.
  apply (sync_keeps_table_sound offline [flight; dinner] empty_state synced).
  - repeat constructor; intros d E T; injection E as <-; eexists; reflexivity.
  - repeat constructor; simpl; intuition discriminate.
  - split; [constructor|]. intro s. apply Nat.le_0_l.
  - reflexivity.
Defined.

End SyncExtras.

(* ================================================================= *)
(** ** [app.py]: what the interface does around a turn *)

Module App.
Import Py Datetime Effects Clients Assistant Scenarios.

(** *** The JSON views of a result *)

(** The mapping built for one event by [_format_calendar_for_json]. *)
Definition calendar_view (event : pyval) : result pyval :=
  summary <~ py_get event "summary" PNone ;;
  start <~ py_get event "start" PNone ;;
  end_ <~ py_get event "end" PNone ;;
  location <~ py_get event "location" PNone ;;
  status <~ py_get event "status" PNone ;;
  link <~ py_get event "htmlLink" PNone ;;
  Ok (PDict [("summary", summary); ("start", start); ("end", end_);
             ("location", location); ("status", status); ("htmlLink", link)]).

Fixpoint _format_calendar_for_json (events : list pyval) : result (list pyval) :=
  match events with
  | [] => Ok []
  | event :: rest =>
      v <~ calendar_view event ;;
      vs <~ _format_calendar_for_json rest ;;
      Ok (v :: vs)
  end.

Definition notification_view (item : pyval) : result pyval :=
  channel <~ py_get item "channel" PNone ;;
  status <~ py_get item "result" PNone ;;
  Ok (PDict [("channel", channel); ("status", status)]).

Fixpoint _format_notifications_for_json (items : list pyval) : result (list pyval) :=
  match items with
  | [] => Ok []
  | item :: rest =>
      v <~ notification_view item ;;
      vs <~ _format_notifications_for_json rest ;;
      Ok (v :: vs)
  end.

(** *** Registration *)

Record User := mkUser {
  username : string;
  email : string;
  password_hash : string
}.

(** ASCII letters and digits, as [str.isalnum] sees them in an ASCII
    string. *)
Definition is_alnum (c : ascii) : bool :=
  let n := nat_of_ascii c in
  ((Nat.leb 48 n && Nat.leb n 57) || (Nat.leb 65 n && Nat.leb n 90)
   || (Nat.leb 97 n && Nat.leb n 122))%bool.

Fixpoint all_alnum (s : string) : bool :=
  match s with
  | EmptyString => true
  | String c s' => (is_alnum c && all_alnum s')%bool
  end.

(** [s.isalnum()]: not empty and every character alphanumeric. *)
Definition isalnum (s : string) : bool :=
  (negb (s =? "")%string && all_alnum s)%bool.

(** [s.replace("_", "")]. *)
Fixpoint drop_underscores (s : string) : string :=
  match s with
  | EmptyString => EmptyString
  | String c s' =>
      if Ascii.eqb c "_"%char then drop_underscores s'
      else String c (drop_underscores s')
  end.

(** The outcome of [register_user]: the returned mapping, as its two
    fields. *)
Record Reply := mkReply { success : bool; message : string }.

Definition username_ok (name : string) : bool :=
  (negb (name =? "")%string
   && negb (Nat.ltb (String.length name) 3)
   && negb (Nat.ltb 20 (String.length name))
   && isalnum (drop_underscores name))%bool.

Definition taken (name mail : string) (u : User) : bool :=
  ((username u =? name) || (email u =? mail))%string%bool.

(** The classes of [sqlalchemy.exc.SQLAlchemyError] among the modelled
    exceptions. *)
Definition is_sqlalchemy_error (e : exn) : bool :=
  match kind e with
  | MultipleResultsFound | IntegrityError | InterfaceError => true
  | _ => false
  end.

(** What the [with] block of [register_user] computes before the commit:
    a reply and the users added to the session, or an exception. *)
Definition register_session (hash : string -> result string)
    (name mail password : string) (users : list User)
  : result (Reply * list User) :=
  match filter (taken name mail) users with
  | _ :: _ :: _ =>
      Raise (mkExn MultipleResultsFound
               "Multiple rows were found when one or none was required")
  | [_] =>
      Ok (mkReply false "An account with that username or email already exists.",
          [])
  | [] =>
      match hash password with
      | Ok h =>
          Ok (mkReply true "Registration successful. You can log in now.",
              [mkUser name mail h])
      | Raise e =>
          if is_sqlalchemy_error e
          then Ok (mkReply false "Registration failed. Please try again.", [])
          else Raise e
      end
  end.

(** [register_user] on the table of users; [hash] is
    [User.hash_password] and [fault] what the commit raises, if it does.
    The result is the reply or the exception, and the table afterwards:
    the session commits when the block returns and rolls back when it
    raises. *)
Definition register_user (hash : string -> result string) (fault : option exn)
    (name mail password confirm : string) (users : list User)
  : result Reply * list User :=
  if negb (username_ok name) then
    (Ok (mkReply false "Username must be 3-20 characters and alphanumeric."), users)
  else if negb (password =? confirm)%string then
    (Ok (mkReply false "Passwords do not match."), users)
  else if Nat.ltb (String.length password) 8 then
    (Ok (mkReply false "Password must be at least 8 characters long."), users)
  else
    match register_session hash name mail password users with
    | Raise e => (Raise e, users)
    | Ok (reply, added) =>
        match fault with
        | Some e => (Raise e, users)
        | None => (Ok reply, (users ++ added)%list)
        end
    end.

(** [register_interface]: the terms come first. *)
Definition register_interface (hash : string -> result string) (fault : option exn)
    (name mail password confirm : string) (terms : bool) (users : list User)
  : result string * list User :=
  if negb terms then (Ok "You must accept the terms of service.", users)
  else
    match register_user hash fault name mail password confirm users with
    | (Ok reply, users') => (Ok (message reply), users')
    | (Raise e, users') => (Raise e, users')
    end.

(** *** The voice tab *)

(** The eight values [voice_assistant_interface] returns. *)
Record Shown := mkShown {
  s_transcription : string;
  s_response : pyval;
  s_audio : option string;
  s_calendar : list pyval;
  s_notifications : list pyval;
  s_intent : pyval;
  s_confidence : Q;
  s_errors : string
}.

(** What [get_user_from_token] does with a token: the id of its user, an
    [AuthenticationError] with its message, or another exception. *)
Inductive auth_outcome :=
| Authenticated (uid : Z)
| Rejected (message : string)
| Crashed (e : exn).

(** [VoicePersonalAssistant(user_id=uid)]: the same collaborators, bound to
    the user. *)
Definition assistant_for (w : World) (uid : Z) : World :=
  {| user_id := uid;
     utcnow := utcnow w;
     speech_client := speech_client w;
     path_exists := path_exists w;
     transcriptions_create := transcriptions_create w;
     speech_synthesize := speech_synthesize w;
     agent_client := agent_client w;
     responses_create := responses_create w;
     json_loads := json_loads w;
     float_of_string := float_of_string w;
     calendar_credentials := calendar_credentials w;
     events_list := events_list w;
     app_token := app_token w;
     user_key := user_key w;
     pushover_post := pushover_post w;
     api_key := api_key w;
     default_sender := default_sender w;
     sendgrid_post := sendgrid_post w;
     commit_fault := commit_fault w;
     py_repr := py_repr w |}.

Definition unauthenticated : Shown :=
  mkShown "Authentication required."
    (PStr "Please log in to use the voice assistant.") None [] []
    (PStr "unauthenticated") 0 "You must log in before using the assistant.".

Definition no_audio : Shown :=
  mkShown "" (PStr "Please provide an audio recording to process.") None [] []
    (PStr "no_audio") 0 "".

(** The string of an argument that is known not to be [None]. *)
Definition text_of (o : option string) : string :=
  match o with Some s => s | None => "" end.

(** [voice_assistant_interface]; [auth] is [get_user_from_token] and
    [round1] is [round(x, 1)]. *)
Definition voice_assistant_interface (w : World)
    (auth : string -> auth_outcome) (round1 : Q -> Q)
    (audio_input access_token : option string) : M Shown :=
  if negb (opt_truthy access_token) then ret unauthenticated
  else if negb (opt_truthy audio_input) then ret no_audio
  else
    match auth (text_of access_token) with
    | Rejected m =>
        ret (mkShown "" (PStr m) None [] [] (PStr "unauthenticated") 0 m)
    | Crashed e => throw e
    | Authenticated uid =>
        result <- handle_audio (assistant_for w uid) (text_of audio_input) ;;
        let errs :=
          match errors result with
          | [] => ""
          | _ => join_lines (errors result)
          end in
        calendar_json <- lift (_format_calendar_for_json (calendar_events result)) ;;
        notification_json <-
          lift (_format_notifications_for_json (notifications result)) ;;
        ret (mkShown (transcription result) (response_text result)
               (audio_path result) calendar_json notification_json
               (intent result) (round1 (confidence result * 100)%Q) errs)
    end.

End App.

Module AppProps.
Import Py Datetime Effects Clients Assistant Scenarios.
Import App HandlerExtras.

(** *** Registration *)



Definition salted (p : string) : result string := Ok ("$2b$12$" ++ p).


Lemma NoDup_snoc {A} (l : list A) (x : A) :
  NoDup l -> ~ In x l -> NoDup (l ++ [x]).
Proof.
  induction l as [|a l IH]; simpl; intros Hl Hx.
  - constructor; [intros []|constructor].
  - inversion Hl; subst. constructor.
    + rewrite in_app_iff. simpl. intros [H|[H|[]]]; [contradiction|].
      apply Hx. now left.
    + apply IH; auto.
Qed.

(** Unique user names and unique e-mail addresses. *)
Definition accounts_unique (users : list User) : Prop :=
  NoDup (map username users) /\ NoDup (map email users).

(** [register_interface] keeps the accounts unique and never removes or
    changes one: the table afterwards is the table before, followed by at
    most one new account, and by none when the terms are not accepted or
    the reply is not the success message. *)
Theorem registration_keeps_accounts_unique
    (hash : string -> result string) (fault : option exn)
    (name mail password confirm : string) (terms : bool) (users : list User) :
  accounts_unique users ->
  let out := register_interface hash fault name mail password confirm terms users in
  accounts_unique (snd out)
  /\ exists added,
       snd out = (users ++ added)%list
       /\ (List.length added <= 1)%nat
       /\ (added <> [] ->
           terms = true
           /\ fst out = Ok "Registration successful. You can log in now.").
Proof.
  intros [Hn He] out. subst out.
  assert (Hsame : forall r : result string,
             accounts_unique (snd (r, users))
             /\ exists added,
                  snd (r, users) = (users ++ added)%list
                  /\ (List.length added <= 1)%nat
                  /\ (added <> [] ->
                      terms = true
                      /\ fst (r, users)
                         = Ok "Registration successful. You can log in now.")).
  { intro r. split; [now split|]. exists []. rewrite app_nil_r.
    repeat split; auto. contradiction. }
  unfold register_interface.
  destruct terms; simpl; [|apply Hsame].
  unfold register_user.
  destruct (negb (username_ok name)); [apply Hsame|].
  destruct (negb (password =? confirm)%string); [apply Hsame|].
  destruct (Nat.ltb (String.length password) 8); [apply Hsame|].
  unfold register_session.
  destruct (filter (taken name mail) users) as [|u0 [|u1 l]] eqn:F.
  - destruct (hash password) as [h|e].
    + destruct fault; [apply Hsame|]. simpl.
      assert (Hfree : forall v, In v users ->
                 username v <> name /\ email v <> mail).
      { intros v Hv.
        assert (Hno : taken name mail v = false).
        { destruct (taken name mail v) eqn:T; [|reflexivity].
          assert (Hin : In v (filter (taken name mail) users))
            by (apply filter_In; auto).
          rewrite F in Hin. contradiction. }
        unfold taken in Hno. apply orb_false_iff in Hno.
        destruct Hno as [Hn1 Hn2].
        apply String.eqb_neq in Hn1, Hn2. auto. }
      split.
      * split; rewrite map_app; simpl; apply NoDup_snoc; auto;
          intro Hin; apply in_map_iff in Hin;
          destruct Hin as (v & Hv & Hin); destruct (Hfree v Hin); auto.
      * eexists. split; [reflexivity|]. simpl. split; [lia|]. auto.
    + destruct (is_sqlalchemy_error e); [|apply Hsame].
      destruct fault; [apply Hsame|]. simpl. rewrite app_nil_r. apply Hsame.
  - destruct fault; [apply Hsame|]. simpl. rewrite app_nil_r. apply Hsame.
  - apply Hsame.
Qed.

Lemma registration_keeps_accounts_unique_witness :
  accounts_unique
    (snd (register_interface salted None "ada_l" "ada@example.com"
            "correct horse" "correct horse" true
            [mkUser "grace" "grace@example.com" "x"])).
Proof.
  apply (registration_keeps_accounts_unique salted None "ada_l" "ada@example.com"
           "correct horse" "correct horse" true
           [mkUser "grace" "grace@example.com" "x"]).
  split; repeat constructor; simpl; intuition.
Defined.

(** *** The JSON views *)

Definition view_keys : list string :=
  ["summary"; "start"; "end"; "location"; "status"; "htmlLink"].

Definition is_mapping (v : pyval) : Prop := exists d, v = PDict d.

Lemma calendar_view_mapping d :
  exists v, calendar_view (PDict d) = Ok (PDict v)
            /\ map fst v = view_keys
            /\ calendar_view (PDict v) = Ok (PDict v).
Proof. eexists. split; [reflexivity|]. split; reflexivity. Qed.

(** On a list of mappings [_format_calendar_for_json] returns one view per
    event, each with exactly the six keys summary, start, end, location,
    status and htmlLink; applied to its own output it returns it
    unchanged. *)
Theorem calendar_json_view (events : list pyval) :
  Forall is_mapping events ->
  exists views,
    _format_calendar_for_json events = Ok views
    /\ List.length views = List.length events
    /\ Forall (fun v => exists d, v = PDict d /\ map fst d = view_keys) views
    /\ _format_calendar_for_json views = Ok views.
Proof.
  induction 1 as [|e events [d ->] _ IH].
  - exists []. repeat split; constructor.
  - destruct IH as (views & Hv & Hlen & Hkeys & Hidem).
    destruct (calendar_view_mapping d) as (v & Hview & Hk & Hi).
    exists (PDict v :: views).
    cbn [_format_calendar_for_json]. rewrite Hview, Hv, Hi, Hidem.
    repeat split.
    + simpl. now rewrite Hlen.
    + constructor; eauto.
Qed.

Lemma calendar_json_view_witness :
  exists views,
    _format_calendar_for_json [SyncProps.flight; SyncProps.dinner] = Ok views
    /\ List.length views = 2%nat
    /\ Forall (fun v => exists d, v = PDict d /\ map fst d = view_keys) views
    /\ _format_calendar_for_json views = Ok views.
Proof.
  apply (calendar_json_view [SyncProps.flight; SyncProps.dinner]).
  repeat constructor; eexists; reflexivity.
Defined.

(** The view of the notifications a notification handler returns: nothing
    when it recorded none, and otherwise the one entry with its channel
    and, under the key status, the result of the service. *)
Theorem notification_json_view
    (channel sent failed : string) (questions : list string)
    (r : HandlerResult) :
  outcome channel sent failed questions r ->
  (h_notifications r = []
   /\ _format_notifications_for_json (h_notifications r) = Ok [])
  \/ exists result,
       h_notifications r = [PDict [("channel", PStr channel); ("result", result)]]
       /\ _format_notifications_for_json (h_notifications r)
          = Ok [PDict [("channel", PStr channel); ("status", result)]].
Proof.
  intros [q Hq | result | err].
  - left. split; reflexivity.
  - right. exists result. split; reflexivity.
  - left. split; reflexivity.
Qed.

Lemma notification_json_view_witness :
  (h_notifications
     (mkHandler (PStr "I sent your push notification.") []
        [PDict [("channel", PStr "pushover"); ("result", PInt 1)]] []) = []
   /\ _format_notifications_for_json
        (h_notifications
           (mkHandler (PStr "I sent your push notification.") []
              [PDict [("channel", PStr "pushover"); ("result", PInt 1)]] []))
      = Ok [])
  \/ exists result,
       h_notifications
         (mkHandler (PStr "I sent your push notification.") []
            [PDict [("channel", PStr "pushover"); ("result", PInt 1)]] [])
       = [PDict [("channel", PStr "pushover"); ("result", result)]]
       /\ _format_notifications_for_json
            (h_notifications
               (mkHandler (PStr "I sent your push notification.") []
                  [PDict [("channel", PStr "pushover"); ("result", PInt 1)]] []))
          = Ok [PDict [("channel", PStr "pushover"); ("status", result)]].
Proof.
  apply (notification_json_view "pushover" "I sent your push notification."
           "I could not send the push notification."
           ["What would you like me to include in the push notification?"]).
  apply delivered.
Defined.

(** *** The voice tab *)

(** No turn is run for a visitor who is not logged in, whose token is
    rejected, or who sent no audio: the interface returns its fixed
    answer and the state, database and remote calls alike, is untouched.
    The token is looked at before the audio. *)
Theorem no_turn_without_token_and_audio
    (w : World) (auth : string -> auth_outcome) (round1 : Q -> Q)
    (audio_input access_token : option string) (st : State) :
  (opt_truthy access_token = false ->
   voice_assistant_interface w auth round1 audio_input access_token st
   = (Ok unauthenticated, st))
  /\ (opt_truthy access_token = true -> opt_truthy audio_input = false ->
      voice_assistant_interface w auth round1 audio_input access_token st
      = (Ok no_audio, st))
  /\ (forall m,
        opt_truthy access_token = true -> opt_truthy audio_input = true ->
        auth (text_of access_token) = Rejected m ->
        voice_assistant_interface w auth round1 audio_input access_token st
        = (Ok (mkShown "" (PStr m) None [] [] (PStr "unauthenticated") 0 m), st)).
Proof.
  unfold voice_assistant_interface.
  split; [|split].
  - intros ->. reflexivity.
  - intros -> ->. reflexivity.
  - intros m -> -> ->. reflexivity.
Qed.

Definition nobody (token : string) : auth_outcome := Rejected "Token is invalid.".

Lemma no_turn_witness :
  voice_assistant_interface offline nobody (fun q => q) None None empty_state
  = (Ok unauthenticated, empty_state)
  /\ voice_assistant_interface offline nobody (fun q => q) (Some "")
       (Some "abc") empty_state
     = (Ok no_audio, empty_state)
  /\ voice_assistant_interface offline nobody (fun q => q) (Some "a.wav")
       (Some "abc") empty_state
     = (Ok (mkShown "" (PStr "Token is invalid.") None [] []
              (PStr "unauthenticated") 0 "Token is invalid."), empty_state).
Proof.
  split; [|split].
  - apply (proj1 (no_turn_without_token_and_audio offline nobody (fun q => q)
                    None None empty_state)). reflexivity.
  - apply (proj1 (proj2 (no_turn_without_token_and_audio offline nobody
                           (fun q => q) (Some "") (Some "abc") empty_state)));
      reflexivity.
  - apply (proj2 (proj2 (no_turn_without_token_and_audio offline nobody
                           (fun q => q) (Some "a.wav") (Some "abc") empty_state)));
      reflexivity.
Defined.

(** A turn run through the interface is logged under the user the token
    resolves to: when the interface returns, the conversation log has
    gained one row, for that user, holding the transcription, the reply
    and the intent that are shown. *)
Theorem turn_is_logged_for_the_token_user
    (w : World) (auth : string -> auth_outcome) (round1 : Q -> Q)
    (audio token : string) (uid : Z) (st : State) :
  token <> "" -> audio <> "" ->
  auth token = Authenticated uid ->
  match voice_assistant_interface w auth round1 (Some audio) (Some token) st with
  | (Ok shown, st') =>
      exists row,
        db_conversations st' = (db_conversations st ++ [row])%list
        /\ cv_user_id row = uid
        /\ cv_user_message row = s_transcription shown
        /\ cv_ai_response row = s_response shown
        /\ cv_intent row = s_intent shown
  | (Raise _, st') =>
      db_conversations st' = db_conversations st
      \/ exists row,
           db_conversations st' = (db_conversations st ++ [row])%list
           /\ cv_user_id row = uid
  end.
Proof.
  intros Ht Ha Hauth.
  apply String.eqb_neq in Ht, Ha.
  assert (T1 : opt_truthy (Some token) = true) by (simpl; now rewrite Ht).
  assert (T2 : opt_truthy (Some audio) = true) by (simpl; now rewrite Ha).
  unfold voice_assistant_interface. rewrite T1, T2.
  cbn [negb text_of]. rewrite Hauth.
  pose proof (Frames.turn_logs_one_conversation (assistant_for w uid) audio st)
    as Hlog.
  unfold bind.
  destruct (handle_audio (assistant_for w uid) audio st) as [[r|e] st1];
    simpl in Hlog; [|now left].
  unfold lift.
  destruct (_format_calendar_for_json (calendar_events r));
    [|right; eexists; split; [exact Hlog|reflexivity]].
  destruct (_format_notifications_for_json (notifications r));
    [|right; eexists; split; [exact Hlog|reflexivity]].
  unfold ret. eexists. split; [exact Hlog|]. repeat split.
Qed.

Definition anyone (token : string) : auth_outcome := Authenticated 7.

Lemma turn_is_logged_witness :
  match voice_assistant_interface offline anyone (fun q => q)
          (Some "hello.wav") (Some "abc") empty_state with
  | (Ok shown, st') =>
      exists row,
        db_conversations st' = (db_conversations empty_state ++ [row])%list
        /\ cv_user_id row = 7
        /\ cv_user_message row = s_transcription shown
        /\ cv_ai_response row = s_response shown
        /\ cv_intent row = s_intent shown
  | (Raise _, st') =>
      db_conversations st' = db_conversations empty_state
      \/ exists row,
           db_conversations st' = (db_conversations empty_state ++ [row])%list
           /\ cv_user_id row = 7
  end.
Proof.
  apply (turn_is_logged_for_the_token_user offline anyone (fun q => q)
           "hello.wav" "abc" 7 empty_state); [discriminate..|reflexivity].
Defined.

End AppProps.

(* ================================================================= *)
(** ** The remote calls of a whole turn *)

Module TurnCalls.
Import Py Datetime Effects Clients Assistant Scenarios.
Import TurnProps Frames Calls.

(** The calls every turn may make: the transcription of its audio, the
    classifier, the synthesis of a reply. *)
Definition base_call (audio : string) (c : call) : Prop :=
  c = CallTranscribe audio
  \/ (exists b m, c = CallClassifier b m)
  \/ (exists s, c = CallSynthesize s).

(** The integration calls allowed to an outcome: those of the handler the
    reported intent selects; of some handler when the turn raised. *)
Definition integration_call (out : result VoiceInteractionResult) (c : call) : Prop :=
  match out with
  | Ok r =>
      exists h, select_handler (py_or (intent r) (PStr "unknown")) = Ok h
                /\ service_of h c
  | Raise _ => exists h, service_of h c
  end.

Definition turn_calls (audio : string) (before : list call)
    (out : result VoiceInteractionResult * State) : Prop :=
  forall c, In c (trace (snd out)) ->
            In c before \/ base_call audio c \/ integration_call (fst out) c.

Lemma turn_calls_bind {A} audio (m : M A) (k : A -> M VoiceInteractionResult) :
  only_calls (base_call audio) m ->
  (forall a st, turn_calls audio (trace st) (k a st)) ->
  forall st, turn_calls audio (trace st) (bind m k st).
Proof.
  intros Hm Hk st c. unfold bind. specialize (Hm st).
  destruct (m st) as [[a|e] st1]; simpl in Hm.
  - intro Hin. destruct (Hk a st1 c Hin) as [H|H]; [|auto].
    destruct (Hm c H); auto.
  - simpl. intro Hin. destruct (Hm c Hin); auto.
Qed.

Lemma only_synthesize_any w v :
  only_calls (fun c => exists s, c = CallSynthesize s) (synthesize w v).
Proof.
  unfold synthesize.
  repeat first [ apply only_emit; eexists; reflexivity | only_step ].
Qed.

Lemma only_run_voice_agent w m :
  only_calls (fun c => exists b m', c = CallClassifier b m')
    (Agent.run_voice_agent w m).
Proof.
  unfold Agent.run_voice_agent, Agent._call_openai, Agent.create.
  repeat first [ apply only_emit; do 2 eexists; reflexivity | only_step ].
Qed.

Lemma persist_keeps_trace w t r i c : keeps trace (_persist_conversation w t r i c).
Proof.
  intro st. unfold _persist_conversation.
  destruct (commit_fault w); [reflexivity|]. destruct r; reflexivity.
Qed.

(** A turn reaches, besides the speech service and the classifier, only
    the integration of the intent it reports: a result whose intent does
    not select the e-mail handler comes from a turn that sent no e-mail,
    and likewise for push notifications and the calendar. *)
Theorem turn_calls_only_the_selected_integration
    (w : World) (audio : string) (st : State) :
  turn_calls audio (trace st) (handle_audio w audio st).
Proof.
  revert st. unfold handle_audio.
  apply turn_calls_bind.
  { eapply only_weaken; [|apply only_transcription_stage].
    intros c ->. now left. }
  intros [t errs].
  apply turn_calls_bind.
  { eapply only_weaken; [|apply only_run_voice_agent].
    intros c H. right. now left. }
  intros ar.
  apply turn_calls_bind; [apply only_lift|].
  intros conf st.
  set (i := dict_get ar "intent" (PStr "unknown")).
  set (p := py_or (dict_get ar "parameters" (PDict [])) (PDict [])).
  set (fu := dict_get ar "follow_up" PNone).
  unfold bind at 1. rewrite execute_intent_select.
  destruct (select_handler (py_or i (PStr "unknown"))) as [h|e] eqn:S.
  2: { intros c Hin. now left. }
  pose proof (handlers_call_only_their_service w h p fu st) as Hh.
  destruct (run_handler w h p fu st) as [[ex|e] st2]; simpl in Hh.
  2: { intros c Hin. simpl in Hin. destruct (Hh c Hin); [now left|].
       right. right. simpl. eauto. }
  set (resp := py_or (h_response_text ex)
                 (dict_get ar "summary" (PStr "I processed your request."))).
  unfold bind at 1.
  pose proof (only_synthesize_any w resp st2) as Hs.
  destruct (synthesize w resp st2) as [[a|e] st3]; simpl in Hs.
  2: { intros c Hin. simpl in Hin. destruct (Hs c Hin) as [H|H].
       - destruct (Hh c H); [now left|]. right. right. simpl. eauto.
       - right. left. right. now right. }
  unfold bind at 1.
  pose proof (persist_keeps_trace w
                (if (t =? "")%string then transcription_fallback else t)
                resp i conf st3) as Hp.
  destruct (_persist_conversation w _ resp i conf st3) as [[u|e] st4];
    simpl in Hp; unfold ret; intros c Hin; simpl in Hin; rewrite Hp in Hin;
    (destruct (Hs c Hin) as [H|H];
     [destruct (Hh c H); [now left|]; right; right; simpl; eauto
     |right; left; right; now right]).
Qed.

End TurnCalls.
